(** * Agent pipelines of the ADK course scripts (Day1/Task1.py, Day1/Task2.py)

    The two scripts configure agents of an external SDK and hand them to its
    runner.  This development embeds the configuration objects the scripts
    build (retry options, models, agents, composers, the loop-exit tool, the
    API-key set-up) and the orchestration contract under which they are run. *)

From Stdlib Require Import ZArith String Ascii List Lia.
From stdpp Require Import base option gmap strings list.
From stdpp Require Import pretty.

Local Open Scope Z_scope.
Local Open Scope string_scope.

(** ** Python values and effects used by the scripts *)

Module Python.

(** A line feed, written [\n] inside the Python literals. *)
Definition nl : string := String "010"%char EmptyString.

(** What can be raised: an instance of [Exception] (any subclass), known by
    the text [str(e)] gives, or [KeyboardInterrupt], which is none. *)
Inductive PyError : Type :=
| Exception (msg : string)
| KeyboardInterrupt.

(** Outcome of a statement block run from a state: it completes with a
    value, or an exception escapes it; either way the state is what the
    statements run so far have made of it. *)
Inductive Result (S A : Type) : Type :=
| Done (a : A) (s : S)
| Raised (e : PyError) (s : S).
Arguments Done {S A} a s.
Arguments Raised {S A} e s.

Definition Prog (S A : Type) : Type := S -> Result S A.

#[export] Instance Prog_ret {S : Type} : MRet (Prog S) := fun _ a s => Done a s.
#[export] Instance Prog_bind {S : Type} : MBind (Prog S) := fun _ _ f m s =>
  match m s with
  | Done a s' => f a s'
  | Raised e s' => Raised e s'
  end.

Definition raise {S A : Type} (e : PyError) : Prog S A := fun s => Raised e s.

(** [try: body except Exception as e: handler e]; a [KeyboardInterrupt]
    passes through. *)
Definition try_except_Exception {S A : Type}
    (body : Prog S A) (handler : string -> Prog S A) : Prog S A :=
  fun s =>
    match body s with
    | Done a s' => Done a s'
    | Raised (Exception msg) s' => handler msg s'
    | Raised KeyboardInterrupt s' => Raised KeyboardInterrupt s'
    end.

(** The part of the process the set-up code touches: [os.environ] and the
    lines printed so far. *)
Record World : Type := mkWorld {
  environ : gmap string string;
  stdout : list string
}.

(** [c in s], for a character [c]. *)
Fixpoint str_contains (c : ascii) (s : string) : bool :=
  match s with
  | EmptyString => false
  | String c' s' => Ascii.eqb c' c || str_contains c s'
  end.

(** [os.environ[k] = v], which goes through [putenv]: a name or a value
    that holds a null byte is refused with [ValueError: embedded null byte],
    an empty name and a name that holds [=] with [ValueError: illegal
    environment variable name]; nothing is stored then. *)
Definition setenv (k v : string) : Prog World unit :=
  fun w =>
    if str_contains "000"%char k || str_contains "000"%char v
    then Raised (Exception "embedded null byte") w
    else if String.eqb k "" || str_contains "="%char k
    then Raised (Exception "illegal environment variable name") w
    else Done tt (mkWorld (<[k := v]> (environ w)) (stdout w)).

(** The world after [print(line)]. *)
Definition print (line : string) (w : World) : World :=
  mkWorld (environ w) (stdout w ++ [line]).

(** The world after [print(a, b)]: the two arguments separated by one
    space. *)
Definition print2 (a b : string) (w : World) : World :=
  print (a +:+ " " +:+ b) w.

(** A statement that changes the state and cannot raise. *)
Definition modify {S : Type} (f : S -> S) : Prog S unit :=
  fun s => Done tt (f s).

(** [UserSecretsClient().get_secret(name)], as the secret store decides it:
    the secret, or what the call raises. *)
Definition SecretStore : Type := string -> PyError + string.

Definition get_secret (store : SecretStore) (name : string) : Prog World string :=
  fun w =>
    match store name with
    | inl e => Raised e w
    | inr secret => Done secret w
    end.

(** Truthiness of a [str]. *)
Definition truthy (s : string) : bool :=
  match s with
  | EmptyString => false
  | String _ _ => true
  end.

End Python.
Import Python.

(** ** google.genai.types and google.adk objects, as the scripts construct them *)

Module types.

Record HttpRetryOptions : Type := {
  attempts : Z;
  exp_base : Z;
  initial_delay : Z;
  http_status_codes : list Z
}.

End types.

Record Gemini : Type := {
  model : string;
  retry_options : types.HttpRetryOptions
}.

(** A Python callable wrapped as a tool: it takes no argument; the state it
    could read or write is the shared execution state, threaded explicitly. *)
Record PyFunction : Type := {
  fn_name : string;
  fn_call : gmap string string -> gmap string string * gmap string string
}.

#[warnings="-register-all"] Inductive Tool : Type :=
| google_search
| AgentTool (agent : BaseAgent)
| FunctionTool (func : PyFunction)
with BaseAgent : Type :=
| Agent (name : string) (llm_model : Gemini) (description : option string)
        (instruction : string) (tools : list Tool) (output_key : option string)
| SequentialAgent (name : string) (sub_agents : list BaseAgent)
| ParallelAgent (name : string) (sub_agents : list BaseAgent)
| LoopAgent (name : string) (sub_agents : list BaseAgent) (max_iterations : Z).

Definition agent_name (a : BaseAgent) : string :=
  match a with
  | Agent n _ _ _ _ _ => n
  | SequentialAgent n _ => n
  | ParallelAgent n _ => n
  | LoopAgent n _ _ => n
  end.

Definition agent_instruction (a : BaseAgent) : string :=
  match a with
  | Agent _ _ _ i _ _ => i
  | _ => ""
  end.

Definition agent_output_key (a : BaseAgent) : option string :=
  match a with
  | Agent _ _ _ _ _ k => k
  | _ => None
  end.

Definition agent_tools (a : BaseAgent) : list Tool :=
  match a with
  | Agent _ _ _ _ ts _ => ts
  | _ => []
  end.

Definition agent_model (a : BaseAgent) : option Gemini :=
  match a with
  | Agent _ m _ _ _ _ => Some m
  | _ => None
  end.

Definition composer_sub_agents (a : BaseAgent) : list BaseAgent :=
  match a with
  | Agent _ _ _ _ _ _ => []
  | SequentialAgent _ l => l
  | ParallelAgent _ l => l
  | LoopAgent _ l _ => l
  end.

(** The unit agents of a pipeline: the leaves of its composer tree. *)
Fixpoint constituents (a : BaseAgent) : list BaseAgent :=
  match a with
  | Agent _ _ _ _ _ _ => [a]
  | SequentialAgent _ l => flat_map constituents l
  | ParallelAgent _ l => flat_map constituents l
  | LoopAgent _ l _ => flat_map constituents l
  end.

(** Every unit agent reachable from [a], the ones wrapped as tools included. *)
Fixpoint constructed_agents (a : BaseAgent) : list BaseAgent :=
  match a with
  | Agent _ _ _ _ ts _ =>
      a :: flat_map (fun t => match t with
                              | AgentTool b => constructed_agents b
                              | _ => []
                              end) ts
  | SequentialAgent _ l => flat_map constructed_agents l
  | ParallelAgent _ l => flat_map constructed_agents l
  | LoopAgent _ l _ => flat_map constructed_agents l
  end.

(** The output keys configured on the unit agents of a pipeline, in order. *)
Definition output_keys (a : BaseAgent) : list string :=
  omap agent_output_key (constituents a).

(** The member lists of the Parallel Composers of a pipeline. *)
Fixpoint parallel_groups (a : BaseAgent) : list (list BaseAgent) :=
  match a with
  | Agent _ _ _ _ _ _ => []
  | SequentialAgent _ l => flat_map parallel_groups l
  | ParallelAgent _ l => l :: flat_map parallel_groups l
  | LoopAgent _ l _ => flat_map parallel_groups l
  end.

(** ** Day1/Task1.py *)

Module Task1.

(** Cell 2: the API key set-up.  [kaggle_secrets] is what the import gives:
    the secret store, or nothing when the module cannot be imported. *)
Definition setup_api_key (kaggle_secrets : option SecretStore) : Prog World unit :=
  try_except_Exception
    (UserSecretsClient ← match kaggle_secrets with
                         | Some store => mret store
                         | None => raise (Exception "No module named 'kaggle_secrets'")
                         end;
     GOOGLE_API_KEY ← get_secret UserSecretsClient "GOOGLE_API_KEY";
     setenv "GOOGLE_API_KEY" GOOGLE_API_KEY;;
     modify (print "✅ Gemini API key setup complete."))
    (fun e => modify (print2
       "🔑 Authentication Error: Please add 'GOOGLE_API_KEY' to your Kaggle secrets. Details:"
       e)).

(** Cell 5 *)
Definition retry_config : types.HttpRetryOptions := {|
  types.attempts := 5;
  types.exp_base := 7;
  types.initial_delay := 1;
  types.http_status_codes := [429; 500; 503; 504]
|}.

(** Cell 6 *)
Definition root_agent : BaseAgent :=
  Agent "helpful_assistant"
    {| model := "gemini-2.5-flash-lite"; retry_options := retry_config |}
    (Some "A simple agent that can answer general questions.")
    "You are a helpful assistant. Use Google Search for current info or if unsure."
    [google_search]
    None.

End Task1.

(** ** Day1/Task2.py *)

Module Task2.

(** Section 1: [UserSecretsClient] is [None] when the import failed. *)
Definition configure_api_key_from_kaggle
    (UserSecretsClient : option SecretStore) : Prog World unit :=
  match UserSecretsClient with
  | None => mret tt
  | Some store =>
      try_except_Exception
        (key ← get_secret store "GOOGLE_API_KEY";
         if truthy key
         then setenv "GOOGLE_API_KEY" key;;
              modify (print "✅ Loaded GOOGLE_API_KEY from Kaggle secrets.")
         else mret tt)
        (fun e => modify (print2 "(Kaggle) couldn't read secret:" e))
  end.

(** Section 2 *)
Definition retry_config : types.HttpRetryOptions := {|
  types.attempts := 5;
  types.exp_base := 7;
  types.initial_delay := 1;
  types.http_status_codes := [429; 500; 503; 504]
|}.

Definition gemini_model (name : string) : Gemini :=
  {| model := name; retry_options := retry_config |}.

(** The default of [gemini_model]'s parameter. *)
Definition default_model_name : string := "gemini-2.5-flash-lite".

(** Section 3 *)
Definition research_agent : BaseAgent :=
  Agent "ResearchAgent" (gemini_model default_model_name) None
    ("You are a specialized research agent. Your only job is to use the google_search tool "
     +:+ "to find 2-3 pieces of relevant information on the given topic and present the findings with citations.")
    [google_search]
    (Some "research_findings").

Definition summarizer_agent : BaseAgent :=
  Agent "SummarizerAgent" (gemini_model default_model_name) None
    ("Read the provided research findings: {research_findings}" +:+ nl
     +:+ "Create a concise summary as a bulleted list with 3-5 key points.")
    []
    (Some "final_summary").

Definition build_research_summarizer_coordinator : BaseAgent :=
  Agent "ResearchCoordinator" (gemini_model default_model_name) None
    ("You are a research coordinator. Your goal is to answer the user's query by orchestrating a workflow." +:+ nl
     +:+ "1. First, call the ResearchAgent tool to find relevant information." +:+ nl
     +:+ "2. Next, call the SummarizerAgent tool to create a concise summary." +:+ nl
     +:+ "3. Present the final summary clearly to the user as your response.")
    [AgentTool research_agent; AgentTool summarizer_agent]
    None.

(** Section 4 *)
Definition outline_agent : BaseAgent :=
  Agent "OutlineAgent" (gemini_model default_model_name) None
    ("Create a blog outline for the given topic with:" +:+ nl
     +:+ "1. A catchy headline" +:+ nl +:+ "2. An introduction hook" +:+ nl
     +:+ "3. 3-5 main sections with 2-3 bullet points for each" +:+ nl
     +:+ "4. A concluding thought")
    []
    (Some "blog_outline").

Definition writer_agent : BaseAgent :=
  Agent "WriterAgent" (gemini_model default_model_name) None
    ("Following this outline strictly: {blog_outline}" +:+ nl
     +:+ "Write a brief, 200 to 300-word blog post with an engaging and informative tone.")
    []
    (Some "blog_draft").

Definition editor_agent : BaseAgent :=
  Agent "EditorAgent" (gemini_model default_model_name) None
    ("Edit this draft: {blog_draft}" +:+ nl
     +:+ "Your task is to polish the text by fixing any grammatical errors, improving the flow and sentence structure, and enhancing overall clarity.")
    []
    (Some "final_blog").

Definition build_sequential_blog_pipeline : BaseAgent :=
  SequentialAgent "BlogPipeline" [outline_agent; writer_agent; editor_agent].

(** Section 5 *)
Definition tech_researcher : BaseAgent :=
  Agent "TechResearcher" (gemini_model default_model_name) None
    "Research the latest AI/ML trends. Include 3 key developments, the main companies involved, and the potential impact. Keep the report very concise (100 words)."
    [google_search]
    (Some "tech_research").

Definition health_researcher : BaseAgent :=
  Agent "HealthResearcher" (gemini_model default_model_name) None
    "Research recent medical breakthroughs. Include 3 significant advances, their practical applications, and estimated timelines. Keep the report concise (100 words)."
    [google_search]
    (Some "health_research").

Definition finance_researcher : BaseAgent :=
  Agent "FinanceResearcher" (gemini_model default_model_name) None
    "Research current fintech trends. Include 3 key trends, their market implications, and the future outlook. Keep the report concise (100 words)."
    [google_search]
    (Some "finance_research").

Definition aggregator_agent : BaseAgent :=
  Agent "AggregatorAgent" (gemini_model default_model_name) None
    ("Combine these three research findings into a single executive summary:" +:+ nl +:+ nl
     +:+ "**Technology Trends:**" +:+ nl +:+ "{tech_research}" +:+ nl +:+ nl
     +:+ "**Health Breakthroughs:**" +:+ nl +:+ "{health_research}" +:+ nl +:+ nl
     +:+ "**Finance Innovations:**" +:+ nl +:+ "{finance_research}" +:+ nl +:+ nl
     +:+ "Your summary should highlight common themes, surprising connections, and the most important key takeaways from all three reports. The final summary should be around 200 words.")
    []
    (Some "executive_summary").

Definition parallel_team : BaseAgent :=
  ParallelAgent "ParallelResearchTeam"
    [tech_researcher; health_researcher; finance_researcher].

Definition build_parallel_research_system : BaseAgent :=
  SequentialAgent "ResearchSystem" [parallel_team; aggregator_agent].

(** Section 6 *)
Definition exit_loop (state : gmap string string)
    : gmap string string * gmap string string :=
  ({[ "status" := "approved";
      "message" := "Story approved. Exiting refinement loop." ]},
   state).

Definition initial_writer_agent : BaseAgent :=
  Agent "InitialWriterAgent" (gemini_model default_model_name) None
    ("Based on the user's prompt, write the first draft of a short story (around 100-150 words)." +:+ nl
     +:+ "Output only the story text, with no introduction or explanation.")
    []
    (Some "current_story").

Definition critic_agent : BaseAgent :=
  Agent "CriticAgent" (gemini_model default_model_name) None
    ("You are a constructive story critic. Review the story provided below." +:+ nl
     +:+ "Story: {current_story}" +:+ nl +:+ nl
     +:+ "Evaluate the story's plot, characters, and pacing." +:+ nl
     +:+ "- If the story is well-written and complete, YOU MUST respond with the exact phrase: 'APPROVED'" +:+ nl
     +:+ "- Otherwise, provide 2-3 specific, actionable suggestions for improvement.")
    []
    (Some "critique").

Definition refiner_agent : BaseAgent :=
  Agent "RefinerAgent" (gemini_model default_model_name) None
    ("You are a story refiner. You have a story draft and critique." +:+ nl +:+ nl
     +:+ "Story Draft: {current_story}" +:+ nl +:+ "Critique: {critique}" +:+ nl +:+ nl
     +:+ "Your task is to analyze the critique." +:+ nl
     +:+ "- IF the critique is EXACTLY 'APPROVED', you MUST call the exit_loop function and nothing else." +:+ nl
     +:+ "- OTHERWISE, rewrite the story draft to fully incorporate the feedback from the critique.")
    [FunctionTool {| fn_name := "exit_loop"; fn_call := exit_loop |}]
    (Some "current_story").

Definition loop_agent (max_iterations : Z) : BaseAgent :=
  LoopAgent "StoryRefinementLoop" [critic_agent; refiner_agent] max_iterations.

Definition build_loop_refinement_pipeline (max_iterations : Z) : BaseAgent :=
  SequentialAgent "StoryPipeline" [initial_writer_agent; loop_agent max_iterations].

(** The call in [main]: [build_loop_refinement_pipeline(max_iterations=2)]. *)
Definition loop_pipeline : BaseAgent := build_loop_refinement_pipeline 2.

(** The four composed agents [main] builds and runs. *)
Definition pipelines (max_iterations : Z) : list BaseAgent :=
  [ build_research_summarizer_coordinator;
    build_sequential_blog_pipeline;
    build_parallel_research_system;
    build_loop_refinement_pipeline max_iterations ].

End Task2.

(** Every unit agent either script constructs. *)
Definition repository_agents (max_iterations : Z) : list BaseAgent :=
  constructed_agents Task1.root_agent
  ++ flat_map constructed_agents (Task2.pipelines max_iterations).

(** ** The orchestration contract the agents are run under

    The scripts only instantiate the SDK's [Agent], [SequentialAgent],
    [ParallelAgent], [LoopAgent], [InMemoryRunner] and retry options; the
    engine behind them is not part of the repository.  The definitions of this
    module follow sections 3 to 5 of the specification. *)

Module Runtime.

(** *** Retry policy *)

Inductive HttpResult (A : Type) : Type :=
| Ok (a : A)
| HttpError (code : Z).
Arguments Ok {A} a.
Arguments HttpError {A} code.

(** What one model call did: its outcome, how many attempts were made and the
    delays waited between them, in order. *)
Record Call (A : Type) : Type := mkCall {
  result : HttpResult A;
  attempts_made : nat;
  delays : list Z
}.
Arguments mkCall {A} result attempts_made delays.
Arguments result {A} c.
Arguments attempts_made {A} c.
Arguments delays {A} c.

(** Modelled from the spec: a failure is retried only on one of the
    configured status codes. *)
Definition retryable (cfg : types.HttpRetryOptions) (code : Z) : bool :=
  bool_decide (code ∈ types.http_status_codes cfg).

(** Modelled from the spec: the retry engine of the SDK's HTTP client, which
    is not in the scripts.  Attempt [k] is made; a failure whose status code is
    retryable is retried after [delay] while retries are left, each next delay
    being the previous one times [exp_base]; any other failure, and a failure
    of the last attempt, propagates. *)
Fixpoint retry_loop {A : Type} (cfg : types.HttpRetryOptions)
    (endpoint : nat -> HttpResult A) (retries_left : nat) (k : nat) (delay : Z)
    : Call A :=
  match endpoint k with
  | Ok a => mkCall (Ok a) (S k) []
  | HttpError code =>
      match retries_left with
      | O => mkCall (HttpError code) (S k) []
      | S n =>
          if retryable cfg code
          then let r := retry_loop cfg endpoint n (S k) (delay * types.exp_base cfg) in
               mkCall (result r) (attempts_made r) (delay :: delays r)
          else mkCall (HttpError code) (S k) []
      end
  end.

(** Modelled from the spec: a model call through [Gemini(retry_options=...)];
    [attempts] bounds the attempts, the first one included. *)
Definition generate_content {A : Type} (m : Gemini) (endpoint : nat -> HttpResult A)
    : Call A :=
  let cfg := retry_options m in
  retry_loop cfg endpoint (Z.to_nat (types.attempts cfg) - 1) 0
    (types.initial_delay cfg).

(** *** Instruction templates *)

Inductive Segment : Type :=
| Lit (s : string)
| Hole (key : string).

(** Modelled from the spec: the SDK's resolution of [{key}] placeholders,
    which is not in the scripts.  [cur] is the text read since the last
    brace; an opening brace with no closing one stays literal text. *)
Fixpoint scan (t : string) (cur : string) (in_hole : bool) : list Segment :=
  match t with
  | EmptyString => if in_hole then [Lit ("{" +:+ cur)] else [Lit cur]
  | String c t' =>
      if in_hole
      then if Ascii.eqb c "}"%char
           then Hole cur :: scan t' "" false
           else scan t' (cur +:+ String c "") true
      else if Ascii.eqb c "{"%char
           then Lit cur :: scan t' "" true
           else scan t' (cur +:+ String c "") false
  end.

Definition parse_template (t : string) : list Segment := scan t "" false.

(** Modelled from the spec: the keys an instruction template reads. *)
Definition placeholders (t : string) : list string :=
  omap (fun seg => match seg with Hole k => Some k | Lit _ => None end)
       (parse_template t).

(** Modelled from the spec: a placeholder stands for the text under its
    key; the spec does not say what a key the state does not hold resolves
    to, and here its placeholder is left as written. *)
Definition render (st : gmap string string) (seg : Segment) : string :=
  match seg with
  | Lit s => s
  | Hole k => default ("{" +:+ k +:+ "}") (st !! k)
  end.

Definition render_all (st : gmap string string) (segs : list Segment) : string :=
  foldr (fun seg acc => render st seg +:+ acc) "" segs.

(** Modelled from the spec: an instruction template resolved against the
    shared execution state. *)
Definition resolve (t : string) (st : gmap string string) : string :=
  render_all st (parse_template t).

(** *** Sessions and events *)

(** What the model answers to one request: a text, and possibly the name of a
    function it asks to call instead of answering. *)
Record Response : Type := mkResponse {
  text : string;
  function_call : option string
}.

Inductive Action : Type :=
| Answered (reply : string)
| Called (fname : string) (returned : gmap string string).

Inductive Terminal : Type :=
| APPROVED
| EXHAUSTED.

Inductive Event : Type :=
| ModelCall (agent : string) (resolved_instruction : string) (action : Action)
| LoopEnded (loop : string) (final : Terminal) (iterations : nat).

(** Modelled from the spec: the shared execution state, the trace of the
    run so far, and whether an exit signal is waiting for the enclosing
    loop. *)
Record Session : Type := mkSession {
  state : gmap string string;
  events : list Event;
  exit_requested : bool
}.

Definition start : Session := mkSession ∅ [] false.

Definition acknowledge_exit (s : Session) : Session :=
  mkSession (state s) (events s) false.

Definition log (e : Event) (s : Session) : Session :=
  mkSession (state s) (events s ++ [e]) (exit_requested s).

(** Modelled from the spec: an agent can only invoke a callable it was
    given; this is the function tool named [fname] among its tools, if any. *)
Definition find_function (fname : string) (ts : list Tool) : option PyFunction :=
  head (omap (fun t => match t with
                       | FunctionTool f =>
                           if String.eqb (fn_name f) fname then Some f else None
                       | _ => None
                       end) ts).

(** Modelled from the spec: the loop termination signal is a structured
    result of a tool call that the Loop Composer recognises as the order to
    stop iterating.  The spec does not spell the sentinel out; here it is a
    result whose [status] is [approved], whatever else it holds. *)
Definition is_exit_signal (r : gmap string string) : bool :=
  bool_decide (r !! "status" = Some "approved").

(** Names of the agents whose model calls a trace records, in order. *)
Definition called_agents (evs : list Event) : list string :=
  omap (fun e => match e with
                 | ModelCall n _ _ => Some n
                 | LoopEnded _ _ _ => None
                 end) evs.


(** The texts the agent [name] answered, in order. *)
Definition answers_of (name : string) (evs : list Event) : list string :=
  omap (fun e => match e with
                 | ModelCall n _ (Answered t) =>
                     if String.eqb n name then Some t else None
                 | _ => None
                 end) evs.

(** The output of the last agent that answered. *)
Definition final_response (s : Session) : option string :=
  last (omap (fun e => match e with
                       | ModelCall _ _ (Answered t) => Some t
                       | _ => None
                       end) (events s)).

(** Modelled from the spec: what a member of a parallel group wrote, the
    entries of [after] that [before] does not hold. *)
Definition written (before after : gmap string string) : gmap string string :=
  filter (fun kv => before !! kv.1 ≠ Some kv.2) after.

(** What a Loop Composer reports when it stops. *)
Record LoopResult : Type := mkLoopResult {
  session : Session;
  terminal : Terminal;
  iterations_run : nat
}.

(** Modelled from the spec: the Loop Composer's state machine (4.4).  In
    state RUNNING(ran + 1) the body runs once; an exit signal observed then
    leads to APPROVED, otherwise the next iteration starts while the cap
    allows one, and the loop is EXHAUSTED when it does not.  [ran] counts the
    iterations already run. *)
Fixpoint loop_run (body : Session -> Session) (remaining : nat) (ran : nat)
    (s : Session) : LoopResult :=
  match remaining with
  | O => mkLoopResult s EXHAUSTED ran
  | S r =>
      let s' := body s in
      if exit_requested s'
      then mkLoopResult (acknowledge_exit s') APPROVED (S ran)
      else loop_run body r (S ran) s'
  end.

(** Modelled from the spec: the Sequential Composer (4.2) runs its agents in
    order over the same session; a raised exit signal short-circuits what is
    left, up to the enclosing loop. *)
Definition run_sequence (run : BaseAgent -> Session -> Session)
    : list BaseAgent -> Session -> Session :=
  fix go (l : list BaseAgent) (s : Session) : Session :=
    match l with
    | [] => s
    | a :: l' =>
        let s' := run a s in
        if exit_requested s' then s' else go l' s'
    end.

(** Modelled from the spec: the Parallel Composer (4.3).  Every member runs
    against [snapshot], the state the group was entered with; what each wrote
    is merged into [acc] when it has completed, and the group is complete
    when all members have. *)
Definition run_members (run : BaseAgent -> Session -> Session)
    (snapshot : gmap string string) : list BaseAgent -> Session -> Session :=
  fix go (l : list BaseAgent) (acc : Session) : Session :=
    match l with
    | [] => acc
    | a :: l' =>
        let sa := run a (mkSession snapshot (events acc) false) in
        go l' (mkSession (written snapshot (state sa) ∪ state acc)
                         (events sa)
                         (exit_requested acc || exit_requested sa))
    end.

Definition run_parallel (run : BaseAgent -> Session -> Session)
    (l : list BaseAgent) (s : Session) : Session :=
  run_members run (state s) l s.

Section Runner.

(** The model endpoint: call index, agent name, resolved instruction and the
    user's prompt give the response. *)
Variable llm : nat -> string -> string -> string -> Response.
Variable prompt : string.

(** Modelled from the spec: a Unit Agent (4.1).  Its instruction is resolved
    against the state; it either calls one of its function tools or answers,
    and an answer is written under its output key. *)
Definition unit_step (name instruction : string) (ts : list Tool)
    (key : option string) (s : Session) : Session :=
  let instr := resolve instruction (state s) in
  let r := llm (length (events s)) name instr prompt in
  match function_call r ≫= (fun f => find_function f ts) with
  | Some f =>
      let out := fn_call f (state s) in
      mkSession out.2
                (events s ++ [ModelCall name instr (Called (fn_name f) out.1)])
                (exit_requested s || is_exit_signal out.1)
  | None =>
      mkSession (match key with
                 | Some k => <[k := text r]> (state s)
                 | None => state s
                 end)
                (events s ++ [ModelCall name instr (Answered (text r))])
                (exit_requested s)
  end.

(** Modelled from the spec: a composed agent is run by the strategy of its
    composer; a loop logs how it ended. *)
Fixpoint run (a : BaseAgent) (s : Session) : Session :=
  match a with
  | Agent n _ _ i ts k => unit_step n i ts k s
  | SequentialAgent _ l => run_sequence run l s
  | ParallelAgent _ l => run_parallel run l s
  | LoopAgent n l K =>
      let r := loop_run (run_sequence run l) (Z.to_nat K) 0 s in
      log (LoopEnded n (terminal r) (iterations_run r)) (session r)
  end.

(** Modelled from the spec: the Runner (4.5) drives a composed agent from an
    empty state. *)
Definition run_debug (a : BaseAgent) : Session := run a start.

End Runner.

End Runtime.

Import Runtime.

(** ** Notions the statements below are written with *)

Definition is_function_tool (t : Tool) : Prop :=
  match t with FunctionTool _ => True | _ => False end.

Definition is_unit_agent (a : BaseAgent) : Prop :=
  match a with Agent _ _ _ _ _ _ => True | _ => False end.

(** The line Task1 prints when the key could not be set. *)
Definition authentication_error : string :=
  "🔑 Authentication Error: Please add 'GOOGLE_API_KEY' to your Kaggle secrets. Details:".

(** [needle] occurs somewhere in [text]. *)
Fixpoint occurs_in (needle text : string) : bool :=
  String.prefix needle text
  || match text with
     | EmptyString => false
     | String _ rest => occurs_in needle rest
     end.

(** The placeholder an instruction writes to read the key [k]. *)
Definition placeholder (k : string) : string := "{" +:+ k +:+ "}".

(** The delays of an exponential backoff: [initial], then each time [base]
    times the previous one. *)
Definition backoff_schedule (initial base : Z) (n : nat) : list Z :=
  map (fun i => initial * base ^ Z.of_nat i) (seq 0 n).








(** The requests the blog pipeline's writer and editor send, given what the
    agent before them produced. *)
Definition writer_request (outline : string) : string :=
  "Following this outline strictly: " +:+ outline +:+ nl
  +:+ "Write a brief, 200 to 300-word blog post with an engaging and informative tone.".

Definition editor_request (draft : string) : string :=
  "Edit this draft: " +:+ draft +:+ nl
  +:+ "Your task is to polish the text by fixing any grammatical errors, improving the flow and sentence structure, and enhancing overall clarity.".

(** The request the aggregator sends, given the three research reports. *)
Definition aggregator_request (tech health finance : string) : string :=
  "Combine these three research findings into a single executive summary:" +:+ nl +:+ nl
  +:+ "**Technology Trends:**" +:+ nl +:+ tech +:+ nl +:+ nl
  +:+ "**Health Breakthroughs:**" +:+ nl +:+ health +:+ nl +:+ nl
  +:+ "**Finance Innovations:**" +:+ nl +:+ finance +:+ nl +:+ nl
  +:+ "Your summary should highlight common themes, surprising connections, and the most important key takeaways from all three reports. The final summary should be around 200 words.".

(** ** Effects of the notebook cells and of the demo's [main]

    Statements that print, display, spawn a process or raise after having
    done so are threaded through a state: a raised exception keeps what was
    done before it. *)

Module Effects.

(** A double quote. *)
Definition dq : string := String "034"%char EmptyString.

(** The running script: its environment and printed lines, what it handed to
    [display], and the argument vectors of the processes it started. *)
Record Process : Type := mkProcess {
  os : World;
  displayed : list string;
  spawned : list (list string)
}.

Definition boot (w : World) : Process := mkProcess w [] [].

(** [print(line)] *)
Definition echo (line : string) : Prog Process unit :=
  fun p => Done tt (mkProcess (print line (os p)) (displayed p) (spawned p)).

(** [print(a, b)] *)
Definition echo2 (a b : string) : Prog Process unit :=
  fun p => Done tt (mkProcess (print2 a b (os p)) (displayed p) (spawned p)).

(** [display(HTML(html))] *)
Definition display (html : string) : Prog Process unit :=
  fun p => Done tt (mkProcess (os p) (displayed p ++ [html]) (spawned p)).

(** [subprocess.Popen(argv, ...)]: [launch] is the operating system, which
    starts the program and gives its pid, or fails. *)
Definition Popen (launch : list string -> PyError + N) (argv : list string)
    : Prog Process N :=
  fun p =>
    match launch argv with
    | inl e => Raised e p
    | inr pid => Done pid (mkProcess (os p) (displayed p) (spawned p ++ [argv]))
    end.

(** [runner.run_debug(prompt)] of an [InMemoryRunner(agent=agent)]: [engine]
    is the SDK, which prints its trace and then gives the response as text,
    or raises. *)
Definition run_debug_call
    (engine : BaseAgent -> string -> list string * (PyError + string))
    (agent : BaseAgent) (prompt : string) : Prog Process string :=
  fun p =>
    let out := engine agent prompt in
    let p' := mkProcess (mkWorld (environ (os p)) (stdout (os p) ++ out.1))
                        (displayed p) (spawned p) in
    match out.2 with
    | inl e => Raised e p'
    | inr response => Done response p'
    end.

(** [s.split(sep)] for a separator of one character. *)
Fixpoint str_split (sep : ascii) (s : string) : list string :=
  match s with
  | EmptyString => [EmptyString]
  | String c s' =>
      if Ascii.eqb c sep
      then EmptyString :: str_split sep s'
      else match str_split sep s' with
           | [] => [String c EmptyString]
           | w :: ws => String c w :: ws
           end
  end.

(** [sep.join(l)] *)
Definition str_join (sep : string) (l : list string) : string :=
  String.concat sep l.

(** How many times [c] occurs in [s]. *)
Fixpoint count_char (c : ascii) (s : string) : nat :=
  match s with
  | EmptyString => 0
  | String c' s' => (if Ascii.eqb c' c then 1 else 0) + count_char c s'
  end.

End Effects.
Import Effects.

(** ** Day1/Task1.py, cells 4 and 7 to 9 *)

Module Task1Cells.

Definition PROXY_HOST : string := "https://kkb-production.jupyter-proxy.kaggle.net".
Definition ADK_PORT : string := "8000".

(** The text of the [styled_html] f-string before and after [{url}]. *)
Definition styled_html_before : string :=
  nl
  +:+ "    <div style=" +:+ dq +:+ "padding: 15px; border: 2px solid #f0ad4e; border-radius: 8px; background-color: #fef9f0; margin: 20px 0;" +:+ dq +:+ ">" +:+ nl
  +:+ "        <div style=" +:+ dq +:+ "font-family: sans-serif; margin-bottom: 12px; color: #333; font-size: 1.1em;" +:+ dq +:+ ">" +:+ nl
  +:+ "            <strong>⚠️ IMPORTANT: Action Required</strong>" +:+ nl
  +:+ "        </div>" +:+ nl
  +:+ "        <div style=" +:+ dq +:+ "font-family: sans-serif; margin-bottom: 15px; color: #333; line-height: 1.5;" +:+ dq +:+ ">" +:+ nl
  +:+ "            The ADK web UI is <strong>not running yet</strong>. You must start it in the next cell." +:+ nl
  +:+ "            <ol style=" +:+ dq +:+ "margin-top: 10px; padding-left: 20px;" +:+ dq +:+ ">" +:+ nl
  +:+ "                <li style=" +:+ dq +:+ "margin-bottom: 5px;" +:+ dq +:+ "><strong>Run the next cell</strong> (the one that starts <code>adk web</code>).</li>" +:+ nl
  +:+ "                <li style=" +:+ dq +:+ "margin-bottom: 5px;" +:+ dq +:+ ">Wait for that cell to show it is " +:+ dq +:+ "Running" +:+ dq +:+ " (it will not " +:+ dq +:+ "complete" +:+ dq +:+ ").</li>" +:+ nl
  +:+ "                <li>Once it's running, <strong>return to this button</strong> and click it to open the UI.</li>" +:+ nl
  +:+ "            </ol>" +:+ nl
  +:+ "            <em style=" +:+ dq +:+ "font-size: 0.9em; color: #555;" +:+ dq +:+ ">(If you click the button before starting the web server, you may get an error.)</em>" +:+ nl
  +:+ "        </div>" +:+ nl
  +:+ "        <a href='".

Definition styled_html_after : string :=
  "' target='_blank' style=" +:+ dq +:+ nl
  +:+ "            display: inline-block; background-color: #1a73e8; color: white; padding: 10px 20px;" +:+ nl
  +:+ "            text-decoration: none; border-radius: 25px; font-family: sans-serif; font-weight: 500;" +:+ nl
  +:+ "            box-shadow: 0 2px 5px rgba(0,0,0,0.2); transition: all 0.2s ease;" +:+ dq +:+ ">" +:+ nl
  +:+ "            Open ADK Web UI (after running cell below) ↗" +:+ nl
  +:+ "        </a>" +:+ nl
  +:+ "    </div>" +:+ nl
  +:+ "    ".

Definition styled_html (url : string) : string :=
  styled_html_before +:+ url +:+ styled_html_after.

(** Cell 4.  [jupyter_server] is [None] when the import fails, and
    otherwise what [list(list_running_servers())] gives: one mapping per
    server. *)
Definition get_adk_proxy_url (jupyter_server : option (list (gmap string string)))
    : Prog Process string :=
  servers ← match jupyter_server with
            | None => raise (Exception
                "jupyter_server import failed. This helper is intended for Kaggle/Jupyter environments.")
            | Some servers => mret servers
            end;
  server ← match servers with
           | [] => raise (Exception
               "No running Jupyter servers found. Cannot build proxy URL.")
           | server :: _ => mret server
           end;
  baseURL ← match server !! "base_url" with
            | None => raise (Exception "'base_url'")
            | Some baseURL => mret baseURL
            end;
  let path_parts := str_split "/" baseURL in
  parsed ← match path_parts !! 2%nat, path_parts !! 3%nat with
           | Some kernel, Some token => mret (kernel, token)
           | _, _ => raise (Exception
               ("Could not parse kernel/token from base URL: " +:+ baseURL))
           end;
  let url_prefix :=
    "/k/" +:+ parsed.1 +:+ "/" +:+ parsed.2 +:+ "/proxy/proxy/" +:+ ADK_PORT in
  let url := PROXY_HOST +:+ url_prefix in
  display (styled_html url);;
  mret url_prefix.

(** Cell 7 *)
Definition ask_agent
    (engine : BaseAgent -> string -> list string * (PyError + string))
    (prompt : string) : Prog Process unit :=
  response ← run_debug_call engine Task1.root_agent prompt;
  echo (nl +:+ "--- Agent Response Trace ---" +:+ nl);;
  echo response.

Definition run_examples
    (engine : BaseAgent -> string -> list string * (PyError + string))
    : Prog Process unit :=
  ask_agent engine
    "What is Agent Development Kit from Google? What languages is the SDK available in?";;
  ask_agent engine "What's the weather in London?".

(** Cell 8: the command line [create_cmd], with
    [os.environ.get('GOOGLE_API_KEY','')] at its end. *)
Definition create_cmd (w : World) : string :=
  "adk create sample-agent --model gemini-2.5-flash-lite --api_key "
  +:+ default "" (environ w !! "GOOGLE_API_KEY").

(** Cell 9.  The result is [url_prefix] as the cell leaves it. *)
Definition start_adk_web (jupyter_server : option (list (gmap string string)))
    (launch : list string -> PyError + N) : Prog Process (option string) :=
  url_prefix ← try_except_Exception
      (url_prefix ← get_adk_proxy_url jupyter_server;
       echo2 "URL prefix:" url_prefix;;
       mret (Some url_prefix))
      (fun e =>
         echo2 "Could not build proxy URL (not in Kaggle/Jupyter?):" e;;
         mret None);
  (if from_option truthy false url_prefix
   then
     let web_cmd := ["adk"; "web"; "--url_prefix"; default "" url_prefix] in
     echo2 "Starting ADK web UI with:" (str_join " " web_cmd);;
     pid ← Popen launch web_cmd;
     echo ("ADK web started (pid=" +:+ pretty pid
           +:+ "). Check kernel output for logs. Open the proxy link displayed above.")
   else
     echo "ADK web not started (missing url_prefix). If running locally, run: adk web --url_prefix <your_prefix> or simply `adk web`");;
  mret url_prefix.

End Task1Cells.

(** ** Day1/Task2.py, section 7 and the [__main__] block *)

Module Task2Demo.

Definition run_agent_and_print
    (engine : BaseAgent -> string -> list string * (PyError + string))
    (agent : BaseAgent) (prompt : string) : Prog Process unit :=
  echo (nl +:+ "--- Running agent: " +:+ agent_name agent +:+ " ---");;
  response ← run_debug_call engine agent prompt;
  echo "--- run_debug returned: ---";;
  echo response;;
  echo ("--- Finished agent: " +:+ agent_name agent +:+ " ---" +:+ nl).

Definition main
    (engine : BaseAgent -> string -> list string * (PyError + string))
    : Prog Process unit :=
  let coordinator := Task2.build_research_summarizer_coordinator in
  run_agent_and_print engine coordinator
    "What are the latest advancements in quantum computing and what do they mean for AI?";;
  let blog_pipeline := Task2.build_sequential_blog_pipeline in
  run_agent_and_print engine blog_pipeline
    "Write a blog post about the benefits of multi-agent systems for software developers";;
  let research_system := Task2.build_parallel_research_system in
  run_agent_and_print engine research_system
    "Run the daily executive briefing on Tech, Health, and Finance";;
  let loop_pipeline := Task2.build_loop_refinement_pipeline 2 in
  run_agent_and_print engine loop_pipeline
    "Write a short story about a lighthouse keeper who discovers a mysterious, glowing map".

(** [if __name__ == "__main__": try: asyncio.run(main()) except ...] *)
Definition main_guard
    (engine : BaseAgent -> string -> list string * (PyError + string))
    : Prog Process unit :=
  fun p =>
    match main engine p with
    | Done _ p' => Done tt p'
    | Raised KeyboardInterrupt p' => echo "Interrupted by user" p'
    | Raised (Exception exc) p' => echo2 "Error running demo:" exc p'
    end.

End Task2Demo.

(** ** Notions the statements about the cells and [main] are written with *)

(** What the secret store yields for [GOOGLE_API_KEY], if there is a store
    and the lookup does not raise. *)
Definition secret_of (store : option SecretStore) : option string :=
  match store with
  | None => None
  | Some lookup =>
      match lookup "GOOGLE_API_KEY" with
      | inr key => Some key
      | inl _ => None
      end
  end.

(** The lookup of [GOOGLE_API_KEY] raises what is no [Exception]. *)
Definition interrupted (store : option SecretStore) : bool :=
  match store with
  | None => false
  | Some lookup =>
      match lookup "GOOGLE_API_KEY" with
      | inl KeyboardInterrupt => true
      | _ => false
      end
  end.

(** A value [os.environ] accepts: it holds no null byte. *)
Definition storable (v : string) : bool := negb (str_contains "000"%char v).

(** The state a block leaves behind, whether it completed or raised. *)
Definition left_behind {S A : Type} (r : Result S A) : S :=
  match r with
  | Done _ s => s
  | Raised _ s => s
  end.

(** The process after [lines] more were printed. *)
Definition with_lines (lines : list string) (p : Process) : Process :=
  mkProcess (mkWorld (environ (os p)) (stdout (os p) ++ lines))
            (displayed p) (spawned p).

(** The argument vector cell 9 starts the web UI with. *)
Definition web_cmd (url_prefix : string) : list string :=
  ["adk"; "web"; "--url_prefix"; url_prefix].

(** The lines [ask_agent] leaves on the output for one prompt: the SDK's
    trace and, when the call returned, the banner and the response. *)
Definition ask_transcript
    (engine : BaseAgent -> string -> list string * (PyError + string))
    (prompt : string) : list string :=
  ((engine Task1.root_agent prompt).1
  ++ match (engine Task1.root_agent prompt).2 with
     | inr response => [nl +:+ "--- Agent Response Trace ---" +:+ nl; response]
     | inl _ => []
     end)%list.

(** The lines [run_agent_and_print] leaves on the output for one example:
    the header, the SDK's trace and, when the call returned, the response
    between its banner and the footer. *)
Definition transcript
    (engine : BaseAgent -> string -> list string * (PyError + string))
    (example : BaseAgent * string) : list string :=
  ((nl +:+ "--- Running agent: " +:+ agent_name example.1 +:+ " ---")
   :: (engine example.1 example.2).1
   ++ match (engine example.1 example.2).2 with
      | inr response =>
          ["--- run_debug returned: ---"; response;
           "--- Finished agent: " +:+ agent_name example.1 +:+ " ---" +:+ nl]
      | inl _ => []
      end)%list.

(** The SDK answers an example rather than raising. *)
Definition answered
    (engine : BaseAgent -> string -> list string * (PyError + string))
    (example : BaseAgent * string) : Prop :=
  ∃ response, (engine example.1 example.2).2 = inr response.

(** The agents [main] runs and the prompts it gives them, in order. *)
Definition examples : list (BaseAgent * string) :=
  [ (Task2.build_research_summarizer_coordinator,
     "What are the latest advancements in quantum computing and what do they mean for AI?");
    (Task2.build_sequential_blog_pipeline,
     "Write a blog post about the benefits of multi-agent systems for software developers");
    (Task2.build_parallel_research_system,
     "Run the daily executive briefing on Tech, Health, and Finance");
    (Task2.build_loop_refinement_pipeline 2,
     "Write a short story about a lighthouse keeper who discovers a mysterious, glowing map") ].

(** [run_agent_and_print] on each example of a list, one after the other. *)
Fixpoint run_all
    (engine : BaseAgent -> string -> list string * (PyError + string))
    (l : list (BaseAgent * string)) : Prog Process unit :=
  match l with
  | [] => mret tt
  | example :: l' =>
      Task2Demo.run_agent_and_print engine example.1 example.2;;
      run_all engine l'
  end.

(** Every name in an agent tree: composers, unit agents and the agents
    wrapped as tools. *)
Fixpoint tree_names (a : BaseAgent) : list string :=
  match a with
  | Agent n _ _ _ ts _ =>
      n :: flat_map (fun t => match t with
                              | AgentTool b => tree_names b
                              | _ => []
                              end) ts
  | SequentialAgent n l => n :: flat_map tree_names l
  | ParallelAgent n l => n :: flat_map tree_names l
  | LoopAgent n l _ => n :: flat_map tree_names l
  end.

(** Every placeholder of every agent of the list is the output key of an
    agent that stands before it. *)
Definition reads_earlier_keys (agents : list BaseAgent) : Prop :=
  ∀ (pre : list BaseAgent) (a : BaseAgent) (post : list BaseAgent) (k : string),
    agents = (pre ++ a :: post)%list →
    k ∈ placeholders (agent_instruction a) →
    Some k ∈ map agent_output_key pre.

(** The same, checked from left to right; [known] are the keys written so
    far. *)
Fixpoint reads_known (known : list (option string)) (agents : list BaseAgent)
    : bool :=
  match agents with
  | [] => true
  | a :: rest =>
      forallb (fun k => bool_decide (Some k ∈ known))
              (placeholders (agent_instruction a))
      && reads_known (known ++ [agent_output_key a])%list rest
  end.

(** * Properties *)

(** Closes a decidable goal over closed data by evaluating its decision. *)
Ltac decide_by_compute := refine (bool_decide_unpack _ _); vm_compute; exact I.

(** Replaces the parse of each closed instruction template by its segments. *)
Ltac parse_templates :=
  repeat match goal with
  | |- context [parse_template ?t] =>
      let v := eval vm_compute in (parse_template t) in
      change (parse_template t) with v
  end.

(** Reads a key back from a state built by successive writes. *)
Ltac lookups :=
  repeat (rewrite lookup_insert_eq || rewrite lookup_insert_ne by done).

(** ** Output keys *)

Lemma story_pipeline_output_keys (K : Z) :
  output_keys (Task2.build_loop_refinement_pipeline K)
  = ["current_story"; "critique"; "current_story"].
Proof. reflexivity. Qed.

(** C3, as stated, fails on the story pipeline [main] builds: the initial
    writer and the refiner are both configured with [current_story]. *)
Lemma C3_story_pipeline_repeats_key :
  ¬ NoDup (output_keys Task2.loop_pipeline).
Proof.
  unfold Task2.loop_pipeline. rewrite story_pipeline_output_keys.
  intros [Hin _]%NoDup_cons. apply Hin. decide_by_compute.
Qed.

(** C3 (amended): the output keys are pairwise unique in the blog pipeline,
    in the research system, among the coordinator's agents and inside the
    refinement loop; in the story pipeline the only repeated key is
    [current_story], which the refiner shares with the initial writer. *)
Theorem C3_output_keys_unique_up_to_story_overwrite (K : Z) :
  NoDup (output_keys Task2.build_sequential_blog_pipeline)
  ∧ NoDup (output_keys Task2.build_parallel_research_system)
  ∧ NoDup (omap agent_output_key
             (constructed_agents Task2.build_research_summarizer_coordinator))
  ∧ NoDup (output_keys (Task2.loop_agent K))
  ∧ output_keys (Task2.build_loop_refinement_pipeline K)
    = ["current_story"; "critique"; "current_story"]
  ∧ agent_output_key Task2.initial_writer_agent = Some "current_story"
  ∧ agent_output_key Task2.refiner_agent = Some "current_story".
Proof.
  repeat split; try reflexivity; decide_by_compute.
Qed.

(** ** Retry policy *)

Lemma backoff_schedule_succ initial base n :
  backoff_schedule initial base (S n)
  = initial :: backoff_schedule (initial * base) base n.
Proof.
  unfold backoff_schedule. cbn [seq map]. f_equal; [simpl; lia|].
  rewrite <- seq_shift, map_map. apply map_ext. intros i.
  rewrite Nat2Z.inj_succ, Z.pow_succ_r by lia. lia.
Qed.

Section Retry.
Context {A : Type}.
Variable cfg : types.HttpRetryOptions.
Variable endpoint : nat -> HttpResult A.

Lemma retry_loop_attempts n k d :
  (S k ≤ attempts_made (retry_loop cfg endpoint n k d) ≤ S k + n)%nat.
Proof.
  revert k d. induction n as [|n IH]; intros k d; simpl.
  - destruct (endpoint k); simpl; lia.
  - destruct (endpoint k) as [a|code]; simpl; [lia|].
    destruct (retryable cfg code); simpl; [|lia].
    specialize (IH (S k) (d * types.exp_base cfg)). lia.
Qed.

Lemma retry_loop_delays n k d :
  delays (retry_loop cfg endpoint n k d)
  = backoff_schedule d (types.exp_base cfg)
      (attempts_made (retry_loop cfg endpoint n k d) - S k).
Proof.
  revert k d. induction n as [|n IH]; intros k d; simpl.
  - destruct (endpoint k); simpl; by rewrite Nat.sub_diag.
  - destruct (endpoint k) as [a|code]; simpl; [by rewrite Nat.sub_diag|].
    destruct (retryable cfg code); simpl; [|by rewrite Nat.sub_diag].
    pose proof (retry_loop_attempts n (S k) (d * types.exp_base cfg)) as [Hge _].
    rewrite IH.
    replace (attempts_made (retry_loop cfg endpoint n (S k) (d * types.exp_base cfg)) - S k)%nat
      with (S (attempts_made (retry_loop cfg endpoint n (S k) (d * types.exp_base cfg)) - S (S k)))
      by lia.
    by rewrite backoff_schedule_succ.
Qed.

(** Every attempt but the last one failed with a retryable status code. *)
Lemma retry_loop_retried n k d j :
  (k ≤ j)%nat → (S j < attempts_made (retry_loop cfg endpoint n k d))%nat →
  ∃ code, endpoint j = HttpError code ∧ retryable cfg code = true.
Proof.
  revert k d. induction n as [|n IH]; intros k d Hk; simpl.
  - destruct (endpoint k); simpl; lia.
  - destruct (endpoint k) as [a|code] eqn:Hep; simpl; [lia|].
    destruct (retryable cfg code) eqn:Hre; simpl; [|lia].
    intros Hlt. destruct (decide (j = k)) as [->|Hne]; [eauto|].
    apply (IH (S k) (d * types.exp_base cfg)); [lia|done].
Qed.

(** The last attempt decides the outcome; if it failed, its status code is
    not retryable or no retry was left. *)
Lemma retry_loop_last n k d :
  let c := retry_loop cfg endpoint n k d in
  result c = endpoint (attempts_made c - 1)%nat
  ∧ ∀ code, endpoint (attempts_made c - 1)%nat = HttpError code →
      retryable cfg code = false ∨ attempts_made c = (S k + n)%nat.
Proof.
  revert k d. induction n as [|n IH]; intros k d; simpl.
  - destruct (endpoint k) as [a|code] eqn:Hep; simpl; rewrite Nat.sub_0_r, Hep.
    + split; [done|]. intros ? [=].
    + split; [done|]. intros ? _. right. lia.
  - destruct (endpoint k) as [a|code] eqn:Hep; simpl.
    + rewrite Nat.sub_0_r, Hep. split; [done|]. intros ? [=].
    + destruct (retryable cfg code) eqn:Hre; simpl.
      * destruct (IH (S k) (d * types.exp_base cfg)) as [Hres Hlast].
        split; [done|]. intros c Hc.
        destruct (Hlast c Hc) as [?|?]; [by left|right; lia].
      * rewrite Nat.sub_0_r, Hep. split; [done|]. intros ? [= <-]. by left.
Qed.

End Retry.

(** Both scripts write the same retry options. *)
Lemma retry_configs_agree : Task1.retry_config = Task2.retry_config.
Proof. reflexivity. Qed.

(** The model of every agent either script constructs carries them. *)
Lemma repository_agents_retry_options (K : Z) :
  Forall (fun a => ∃ m, agent_model a = Some m
                        ∧ retry_options m = Task2.retry_config)
         (repository_agents K).
Proof.
  unfold repository_agents. cbn.
  repeat (constructor; [eexists; split; reflexivity|]). constructor.
Qed.

Lemma repository_agent_retry_options (K : Z) (a : BaseAgent) (m : Gemini) :
  a ∈ repository_agents K → agent_model a = Some m →
  retry_options m = Task2.retry_config.
Proof.
  intros Hin Hm.
  pose proof (repository_agents_retry_options K) as Hall.
  rewrite Forall_forall in Hall. destruct (Hall a Hin) as (m' & Hm' & Hcfg).
  congruence.
Qed.

(** C1: for every agent of the repository, a model call makes at most 5
    attempts; the delays between them are 1, 7, 49, 343, each 7 times the
    one before and so strictly increasing; a failure whose status code is
    not one of 429, 500, 503, 504 ends the call at once, and a failure with
    one of them is followed by another attempt while fewer than 5 were made. *)
Theorem C1_retry_policy (K : Z) (a : BaseAgent) (m : Gemini)
    (A : Type) (endpoint : nat -> HttpResult A) :
  a ∈ repository_agents K →
  agent_model a = Some m →
  let c := generate_content m endpoint in
  (attempts_made c ≤ 5)%nat
  ∧ delays c = take (attempts_made c - 1) [1; 7; 49; 343]
  ∧ (∀ d, head (delays c) = Some d → d = 1)
  ∧ (∀ i d d', delays c !! i = Some d → delays c !! S i = Some d' →
       d' = d * 7 ∧ d < d')
  ∧ (∀ k code, (k < attempts_made c)%nat → endpoint k = HttpError code →
       code ∉ [429; 500; 503; 504] →
       attempts_made c = S k ∧ result c = HttpError code)
  ∧ (∀ k code, (k < attempts_made c)%nat → endpoint k = HttpError code →
       code ∈ [429; 500; 503; 504] → (S k < 5)%nat →
       (S k < attempts_made c)%nat).
Proof.
  intros Hin Hm c. subst c. unfold generate_content.
  rewrite (repository_agent_retry_options K a m Hin Hm).
  change (Z.to_nat (types.attempts Task2.retry_config) - 1)%nat with 4%nat.
  change (types.initial_delay Task2.retry_config) with 1.
  set (c := retry_loop Task2.retry_config endpoint 4 0 1).
  pose proof (retry_loop_attempts Task2.retry_config endpoint 4 0 1) as [Hge Hle].
  pose proof (retry_loop_delays Task2.retry_config endpoint 4 0 1) as Hdelays.
  pose proof (retry_loop_last Task2.retry_config endpoint 4 0 1) as [Hres Hlast].
  fold c in Hge, Hle, Hdelays, Hres, Hlast.
  change (types.exp_base Task2.retry_config) with 7 in Hdelays.
  assert (delays c = take (attempts_made c - 1) [1; 7; 49; 343]) as Htake.
  { rewrite Hdelays.
    destruct (attempts_made c) as [|[|[|[|[|[|n]]]]]]; try lia; reflexivity. }
  split; [lia|]. split; [exact Htake|].
  split; [|split; [|split]].
  - rewrite Htake. intros d.
    destruct (attempts_made c - 1)%nat; simpl; congruence.
  - rewrite Htake. intros i d d'.
    assert (attempts_made c - 1 ≤ 4)%nat as Hfew by lia. revert Hfew.
    destruct (attempts_made c - 1)%nat as [|[|[|[|[|n]]]]]; [..|lia]; intros _.
    all: destruct i as [|[|[|[|i]]]]; simpl; intros H1 H2; simplify_eq; lia.
  - intros k code Hk Hep Hcode.
    assert (attempts_made c = S k) as Hlen.
    { destruct (decide (S k < attempts_made c)%nat) as [Hlt|]; [|lia].
      destruct (retry_loop_retried Task2.retry_config endpoint 4 0 1 k)
        as (code' & Hep' & Hre); [lia|exact Hlt|].
      rewrite Hep in Hep'. injection Hep' as <-.
      apply bool_decide_eq_true in Hre. done. }
    split; [exact Hlen|].
    rewrite Hres, Hlen. by replace (S k - 1)%nat with k by lia.
  - intros k code Hk Hep Hcode Hroom.
    destruct (decide (S k < attempts_made c)%nat) as [|Hnlt]; [done|].
    assert (attempts_made c - 1 = k)%nat as Hlen by lia.
    destruct (Hlast code) as [Hre|Hfull]; [by rewrite Hlen| |lia].
    apply bool_decide_eq_false in Hre. done.
Qed.

(** C1 at work: the helpful assistant of Task1 against an endpoint that
    answers 503 twice and then succeeds. *)
Lemma C1_retry_policy_witness :
  let endpoint := fun k : nat =>
    if (k <? 2)%nat then HttpError 503 else Ok "ready" in
  let c := generate_content
             {| model := "gemini-2.5-flash-lite";
                retry_options := Task1.retry_config |} endpoint in
  (attempts_made c ≤ 5)%nat
  ∧ delays c = take (attempts_made c - 1) [1; 7; 49; 343]
  ∧ (∀ d, head (delays c) = Some d → d = 1)
  ∧ (∀ i d d', delays c !! i = Some d → delays c !! S i = Some d' →
       d' = d * 7 ∧ d < d')
  ∧ (∀ k code, (k < attempts_made c)%nat → endpoint k = HttpError code →
       code ∉ [429; 500; 503; 504] →
       attempts_made c = S k ∧ result c = HttpError code)
  ∧ (∀ k code, (k < attempts_made c)%nat → endpoint k = HttpError code →
       code ∈ [429; 500; 503; 504] → (S k < 5)%nat →
       (S k < attempts_made c)%nat).
Proof.
  intros endpoint.
  apply (C1_retry_policy 2 Task1.root_agent _ string endpoint).
  - apply list_elem_of_here.
  - reflexivity.
Defined.

(** C8: one retry configuration for all.  Both scripts write the same
    options (5 attempts, base 7, initial delay 1, codes 429, 500, 503, 504),
    [gemini_model] puts them on every model it builds, and the model of each
    of the fourteen agents the scripts construct carries exactly them. *)
Theorem C8_single_retry_configuration (K : Z) :
  Task1.retry_config = Task2.retry_config
  ∧ Task2.retry_config
    = {| types.attempts := 5; types.exp_base := 7; types.initial_delay := 1;
         types.http_status_codes := [429; 500; 503; 504] |}
  ∧ (∀ name, retry_options (Task2.gemini_model name) = Task2.retry_config)
  ∧ map agent_name (repository_agents K)
    = ["helpful_assistant"; "ResearchCoordinator"; "ResearchAgent";
       "SummarizerAgent"; "OutlineAgent"; "WriterAgent"; "EditorAgent";
       "TechResearcher"; "HealthResearcher"; "FinanceResearcher";
       "AggregatorAgent"; "InitialWriterAgent"; "CriticAgent"; "RefinerAgent"]
  ∧ Forall (fun a => ∃ m, agent_model a = Some m
                          ∧ retry_options m = Task2.retry_config)
           (repository_agents K).
Proof.
  split; [reflexivity|]. split; [reflexivity|]. split; [reflexivity|].
  split; [reflexivity|]. apply repository_agents_retry_options.
Qed.

(** ** The loop-exit tool *)

(** C9: [exit_loop] takes no argument, returns the same two-entry mapping
    whatever the state is, and leaves the state as it found it. *)
Theorem C9_exit_loop_is_constant (st : gmap string string) :
  Task2.exit_loop st
  = ({[ "status" := "approved";
        "message" := "Story approved. Exiting refinement loop." ]}, st)
  ∧ (∀ st', (Task2.exit_loop st').1 = (Task2.exit_loop st).1)
  ∧ (Task2.exit_loop st).2 = st
  ∧ (Task2.exit_loop st).1 !! "status" = Some "approved"
  ∧ (Task2.exit_loop st).1 !! "message"
    = Some "Story approved. Exiting refinement loop."
  ∧ dom (Task2.exit_loop st).1 = ({["status"; "message"]} : gset string).
Proof.
  split; [reflexivity|]. split; [reflexivity|]. split; [reflexivity|].
  cbn [Task2.exit_loop fst].
  split; [by rewrite lookup_insert_eq|].
  split; [by rewrite lookup_insert_ne, lookup_singleton_eq|].
  by rewrite dom_insert_L, dom_singleton_L.
Qed.

(** ** API key set-up *)

(** Assigning [GOOGLE_API_KEY]: the name is a legal one, so the value alone
    decides whether [os.environ] takes it. *)
Lemma setenv_key (v : string) (w : World) :
  setenv "GOOGLE_API_KEY" v w
  = if storable v
    then Done tt (mkWorld (<["GOOGLE_API_KEY" := v]> (environ w)) (stdout w))
    else Raised (Exception "embedded null byte") w.
Proof.
  unfold setenv, storable.
  change (str_contains "000" "GOOGLE_API_KEY") with false.
  change (String.eqb "GOOGLE_API_KEY" "" || str_contains "=" "GOOGLE_API_KEY")
    with false.
  cbn [orb]. by destruct (str_contains "000" v).
Qed.

(** What cell 2 comes to, case by case. *)
Lemma setup_api_key_result (store : option SecretStore) (w : World) :
  Task1.setup_api_key store w
  = match store with
    | None =>
        Done tt (print2 authentication_error "No module named 'kaggle_secrets'" w)
    | Some lookup =>
        match lookup "GOOGLE_API_KEY" with
        | inr key =>
            if storable key
            then Done tt (print "✅ Gemini API key setup complete."
                            (mkWorld (<["GOOGLE_API_KEY" := key]> (environ w))
                                     (stdout w)))
            else Done tt (print2 authentication_error "embedded null byte" w)
        | inl (Exception e) => Done tt (print2 authentication_error e w)
        | inl KeyboardInterrupt => Raised KeyboardInterrupt w
        end
    end.
Proof.
  unfold Task1.setup_api_key, try_except_Exception, get_secret, modify, raise,
    mbind, mret, Prog_bind, Prog_ret.
  destruct store as [lookup|]; [|reflexivity].
  destruct (lookup "GOOGLE_API_KEY") as [[e|]|key]; [reflexivity..|].
  rewrite setenv_key. by destruct (storable key).
Qed.

(** What [configure_api_key_from_kaggle] comes to, case by case. *)
Lemma configure_api_key_result (store : option SecretStore) (w : World) :
  Task2.configure_api_key_from_kaggle store w
  = match store with
    | None => Done tt w
    | Some lookup =>
        match lookup "GOOGLE_API_KEY" with
        | inr key =>
            if truthy key
            then if storable key
                 then Done tt (print "✅ Loaded GOOGLE_API_KEY from Kaggle secrets."
                                 (mkWorld (<["GOOGLE_API_KEY" := key]> (environ w))
                                          (stdout w)))
                 else Done tt (print2 "(Kaggle) couldn't read secret:"
                                 "embedded null byte" w)
            else Done tt w
        | inl (Exception e) =>
            Done tt (print2 "(Kaggle) couldn't read secret:" e w)
        | inl KeyboardInterrupt => Raised KeyboardInterrupt w
        end
    end.
Proof.
  unfold Task2.configure_api_key_from_kaggle, try_except_Exception, get_secret,
    modify, mbind, mret, Prog_bind, Prog_ret.
  destruct store as [lookup|]; [|reflexivity].
  destruct (lookup "GOOGLE_API_KEY") as [[e|]|key]; [reflexivity..|].
  destruct (truthy key); [|reflexivity].
  rewrite setenv_key. by destruct (storable key).
Qed.

(** C6, as stated, fails: with no secret store at hand Task1 prints a line
    and goes on, Task2 goes on without a word, and neither has set the key. *)
Lemma C6_missing_secret_store_is_not_fatal :
  Task1.setup_api_key None (mkWorld ∅ [])
  = Done tt (mkWorld ∅
      [authentication_error +:+ " No module named 'kaggle_secrets'"])
  ∧ Task2.configure_api_key_from_kaggle None (mkWorld ∅ [])
    = Done tt (mkWorld ∅ []).
Proof. split; reflexivity. Qed.

(** C6 (amended): when the secret cannot be obtained because there is no
    secret store or because the lookup raises an [Exception], the set-up does
    not stop the run.  Task1 catches the exception and prints an
    authentication error with the details; Task2 returns silently when there
    is no secret store and prints that the secret could not be read when the
    lookup fails; [os.environ] is left as it was.  What [except Exception]
    does not catch is not handled: a [KeyboardInterrupt] raised by the lookup
    leaves either set-up as it is, with nothing printed. *)
Theorem C6_missing_key_reported_not_fatal
    (w : World) (failing : SecretStore) (e : string) :
  failing "GOOGLE_API_KEY" = inl (Exception e) →
  Task1.setup_api_key None w
  = Done tt (print2 authentication_error "No module named 'kaggle_secrets'" w)
  ∧ Task1.setup_api_key (Some failing) w
    = Done tt (print2 authentication_error e w)
  ∧ Task2.configure_api_key_from_kaggle None w = Done tt w
  ∧ Task2.configure_api_key_from_kaggle (Some failing) w
    = Done tt (print2 "(Kaggle) couldn't read secret:" e w)
  ∧ environ (print2 authentication_error e w) = environ w
  ∧ environ (print2 "(Kaggle) couldn't read secret:" e w) = environ w
  ∧ (∀ interrupting : SecretStore,
       interrupting "GOOGLE_API_KEY" = inl KeyboardInterrupt →
       Task1.setup_api_key (Some interrupting) w = Raised KeyboardInterrupt w
       ∧ Task2.configure_api_key_from_kaggle (Some interrupting) w
         = Raised KeyboardInterrupt w).
Proof.
  intros Hfail.
  split; [by rewrite setup_api_key_result|].
  split; [by rewrite setup_api_key_result, Hfail|].
  split; [by rewrite configure_api_key_result|].
  split; [by rewrite configure_api_key_result, Hfail|].
  split; [reflexivity|]. split; [reflexivity|].
  intros interrupting Hint.
  by rewrite setup_api_key_result, configure_api_key_result, Hint.
Qed.

(** C6 (amended) at work: a secret store that has no such secret, and an
    environment that holds something else. *)
Lemma C6_missing_key_reported_not_fatal_witness :
  let w := mkWorld {["HOME" := "/kaggle/working"]} [] in
  let failing : SecretStore := fun _ => inl (Exception "No user secrets exist") in
  Task1.setup_api_key None w
  = Done tt (print2 authentication_error "No module named 'kaggle_secrets'" w)
  ∧ Task1.setup_api_key (Some failing) w
    = Done tt (print2 authentication_error "No user secrets exist" w)
  ∧ Task2.configure_api_key_from_kaggle None w = Done tt w
  ∧ Task2.configure_api_key_from_kaggle (Some failing) w
    = Done tt (print2 "(Kaggle) couldn't read secret:" "No user secrets exist" w)
  ∧ environ (print2 authentication_error "No user secrets exist" w) = environ w
  ∧ environ (print2 "(Kaggle) couldn't read secret:" "No user secrets exist" w)
    = environ w
  ∧ (∀ interrupting : SecretStore,
       interrupting "GOOGLE_API_KEY" = inl KeyboardInterrupt →
       Task1.setup_api_key (Some interrupting) w = Raised KeyboardInterrupt w
       ∧ Task2.configure_api_key_from_kaggle (Some interrupting) w
         = Raised KeyboardInterrupt w).
Proof.
  intros w failing.
  apply (C6_missing_key_reported_not_fatal w failing "No user secrets exist").
  reflexivity.
Defined.

(** ** Instruction templates *)

Lemma resolve_editor (st : gmap string string) (draft : string) :
  resolve (agent_instruction Task2.editor_agent) (<["blog_draft" := draft]> st)
  = editor_request draft.
Proof.
  unfold resolve. parse_templates. cbn [render_all foldr render]. lookups.
  reflexivity.
Qed.

Lemma resolve_writer (st : gmap string string) (outline : string) :
  resolve (agent_instruction Task2.writer_agent) (<["blog_outline" := outline]> st)
  = writer_request outline.
Proof.
  unfold resolve. parse_templates. cbn [render_all foldr render]. lookups.
  reflexivity.
Qed.

Lemma resolve_outline (st : gmap string string) :
  resolve (agent_instruction Task2.outline_agent) st
  = agent_instruction Task2.outline_agent.
Proof. vm_compute. reflexivity. Qed.

Lemma resolve_aggregator (st : gmap string string) (t h f : string) :
  resolve (agent_instruction Task2.aggregator_agent)
    (<["finance_research" := f]>
       (<["health_research" := h]> (<["tech_research" := t]> st)))
  = aggregator_request t h f.
Proof.
  unfold resolve. parse_templates. cbn [render_all foldr render]. lookups.
  reflexivity.
Qed.

(** The researchers' instructions hold no placeholder: whatever the state,
    the request is the instruction as written. *)
Lemma research_members_requests :
  Forall (fun m => ∀ st, resolve (agent_instruction m) st = agent_instruction m)
         (composer_sub_agents Task2.parallel_team).
Proof. repeat constructor; intros st; vm_compute; reflexivity. Qed.

(** ** Steps of the runner *)

Lemma written_empty (m : gmap string string) : written ∅ m = m.
Proof.
  unfold written. apply map_filter_id. intros k v _. simpl.
  by rewrite lookup_empty.
Qed.

Lemma insert_empty_union (k v : string) (m : gmap string string) :
  <[k := v]> ∅ ∪ m = <[k := v]> m.
Proof. by rewrite insert_empty, <- insert_union_singleton_l. Qed.

Lemma find_no_function fname ts :
  Forall (fun t => ¬ is_function_tool t) ts → find_function fname ts = None.
Proof.
  unfold find_function. induction 1 as [|t ts Ht _ IH]; simpl; [done|].
  destruct t; simpl in *; tauto.
Qed.


Lemma run_sequence_last (f : BaseAgent → Session → Session) a s :
  run_sequence f [a] s = f a s.
Proof. simpl. by destruct (exit_requested (f a s)). Qed.

Lemma run_sequence_continue (f : BaseAgent → Session → Session) a l s :
  exit_requested (f a s) = false →
  run_sequence f (a :: l) s = run_sequence f l (f a s).
Proof. intros H. simpl. by rewrite H. Qed.



Section Steps.
Variable llm : nat -> string -> string -> string -> Response.
Variable prompt : string.


(** An agent with no function tool answers. *)
Lemma run_unit_answers a s :
  is_unit_agent a →
  Forall (fun t => ¬ is_function_tool t) (agent_tools a) →
  run llm prompt a s
  = let i := resolve (agent_instruction a) (state s) in
    let r := llm (length (events s)) (agent_name a) i prompt in
    mkSession (match agent_output_key a with
               | Some k => <[k := text r]> (state s)
               | None => state s
               end)
              (events s ++ [ModelCall (agent_name a) i (Answered (text r))])
              (exit_requested s).
Proof.
  destruct a as [n m d i ts k| | |]; try done. intros _ Hnone.
  cbn [run agent_instruction agent_name agent_output_key agent_tools] in *.
  unfold unit_step.
  destruct (function_call _) as [f|]; simpl;
    [rewrite find_no_function by done|]; reflexivity.
Qed.


Lemma run_sequential_agent n l s :
  run llm prompt (SequentialAgent n l) s = run_sequence (run llm prompt) l s.
Proof. reflexivity. Qed.

Lemma run_parallel_agent n l s :
  run llm prompt (ParallelAgent n l) s
  = run_members (run llm prompt) (state s) l s.
Proof. reflexivity. Qed.


Lemma run_members_step a l snapshot acc :
  run_members (run llm prompt) snapshot (a :: l) acc
  = let sa := run llm prompt a (mkSession snapshot (events acc) false) in
    run_members (run llm prompt) snapshot l
      (mkSession (written snapshot (state sa) ∪ state acc) (events sa)
                 (exit_requested acc || exit_requested sa)).
Proof. reflexivity. Qed.

(** *** The blog pipeline, run *)

Lemma blog_run :
  let o := text (llm 0%nat "OutlineAgent"
                   (agent_instruction Task2.outline_agent) prompt) in
  let w := text (llm 1%nat "WriterAgent" (writer_request o) prompt) in
  let e := text (llm 2%nat "EditorAgent" (editor_request w) prompt) in
  run_debug llm prompt Task2.build_sequential_blog_pipeline
  = mkSession
      (<["final_blog" := e]>
         (<["blog_draft" := w]> (<["blog_outline" := o]> ∅)))
      [ModelCall "OutlineAgent" (agent_instruction Task2.outline_agent)
         (Answered o);
       ModelCall "WriterAgent" (writer_request o) (Answered w);
       ModelCall "EditorAgent" (editor_request w) (Answered e)]
      false.
Proof.
  intros o w e.
  unfold run_debug, Task2.build_sequential_blog_pipeline.
  rewrite run_sequential_agent.
  rewrite run_sequence_continue, (run_unit_answers Task2.outline_agent)
    by (try exact I; try constructor; by rewrite run_unit_answers by (try exact I; constructor)).
  rewrite run_sequence_continue, (run_unit_answers Task2.writer_agent)
    by (try exact I; try constructor; by rewrite run_unit_answers by (try exact I; constructor)).
  rewrite run_sequence_last, (run_unit_answers Task2.editor_agent)
    by (try exact I; constructor).
  cbv zeta. cbn [state events exit_requested start length app].
  change (agent_output_key Task2.outline_agent) with (Some "blog_outline").
  change (agent_output_key Task2.writer_agent) with (Some "blog_draft").
  change (agent_output_key Task2.editor_agent) with (Some "final_blog").
  change (agent_name Task2.outline_agent) with "OutlineAgent".
  change (agent_name Task2.writer_agent) with "WriterAgent".
  change (agent_name Task2.editor_agent) with "EditorAgent".
  cbv iota.
  rewrite resolve_outline, resolve_writer, resolve_editor.
  reflexivity.
Qed.

(** *** The research system, run *)

Lemma research_run :
  let t := text (llm 0%nat "TechResearcher"
                   (agent_instruction Task2.tech_researcher) prompt) in
  let h := text (llm 1%nat "HealthResearcher"
                   (agent_instruction Task2.health_researcher) prompt) in
  let f := text (llm 2%nat "FinanceResearcher"
                   (agent_instruction Task2.finance_researcher) prompt) in
  let e := text (llm 3%nat "AggregatorAgent" (aggregator_request t h f) prompt) in
  run_debug llm prompt Task2.build_parallel_research_system
  = mkSession
      (<["executive_summary" := e]>
         (<["finance_research" := f]>
            (<["health_research" := h]> (<["tech_research" := t]> ∅))))
      [ModelCall "TechResearcher" (agent_instruction Task2.tech_researcher)
         (Answered t);
       ModelCall "HealthResearcher" (agent_instruction Task2.health_researcher)
         (Answered h);
       ModelCall "FinanceResearcher" (agent_instruction Task2.finance_researcher)
         (Answered f);
       ModelCall "AggregatorAgent" (aggregator_request t h f) (Answered e)]
      false.
Proof.
  intros t h f e.
  unfold run_debug, Task2.build_parallel_research_system, Task2.parallel_team.
  rewrite run_sequential_agent.
  assert (run llm prompt
            (ParallelAgent "ParallelResearchTeam"
               [Task2.tech_researcher; Task2.health_researcher;
                Task2.finance_researcher]) start
          = mkSession
              (<["finance_research" := f]>
                 (<["health_research" := h]> (<["tech_research" := t]> ∅)))
              [ModelCall "TechResearcher" (agent_instruction Task2.tech_researcher)
                 (Answered t);
               ModelCall "HealthResearcher"
                 (agent_instruction Task2.health_researcher) (Answered h);
               ModelCall "FinanceResearcher"
                 (agent_instruction Task2.finance_researcher) (Answered f)]
              false) as Hteam.
  { rewrite run_parallel_agent, !run_members_step. cbv zeta.
    rewrite !run_unit_answers by (try exact I; repeat constructor; intros []).
    cbv zeta. cbn [state events exit_requested start length app orb run_members].
    rewrite !written_empty.
    pose proof research_members_requests as Hreq.
    cbn [composer_sub_agents Task2.parallel_team] in Hreq.
    rewrite !Forall_cons in Hreq. destruct Hreq as (-> & -> & -> & _).
    change (agent_output_key Task2.tech_researcher) with (Some "tech_research").
    change (agent_output_key Task2.health_researcher) with (Some "health_research").
    change (agent_output_key Task2.finance_researcher) with (Some "finance_research").
    change (agent_name Task2.tech_researcher) with "TechResearcher".
    change (agent_name Task2.health_researcher) with "HealthResearcher".
    change (agent_name Task2.finance_researcher) with "FinanceResearcher".
    cbv iota.
    by rewrite (right_id_L ∅ (∪)), !insert_empty_union. }
  rewrite run_sequence_continue by (by rewrite Hteam).
  rewrite Hteam, run_sequence_last, run_unit_answers by (try exact I; constructor).
  cbv zeta. cbn [state events exit_requested length app].
  change (agent_output_key Task2.aggregator_agent) with (Some "executive_summary").
  change (agent_name Task2.aggregator_agent) with "AggregatorAgent".
  rewrite resolve_aggregator.
  reflexivity.
Qed.

End Steps.

(** ** The sequential blog pipeline *)

(** C4: the blog pipeline is the sequence Outline, Writer, Editor.  In every
    run the outline is produced first, the writer is asked with the outline
    in its request, the editor is asked with the writer's draft put verbatim
    in place of [{blog_draft}], and the final result is the editor's answer
    to that request. *)
Theorem C4_blog_pipeline_in_dependency_order
    (llm : nat -> string -> string -> string -> Response) (prompt : string) :
  Task2.build_sequential_blog_pipeline
  = SequentialAgent "BlogPipeline"
      [Task2.outline_agent; Task2.writer_agent; Task2.editor_agent]
  ∧ map agent_name (composer_sub_agents Task2.build_sequential_blog_pipeline)
    = ["OutlineAgent"; "WriterAgent"; "EditorAgent"]
  ∧ agent_output_key Task2.writer_agent = Some "blog_draft"
  ∧ occurs_in (placeholder "blog_draft")
              (agent_instruction Task2.editor_agent) = true
  ∧ placeholders (agent_instruction Task2.editor_agent) = ["blog_draft"]
  ∧ (∀ st draft,
       resolve (agent_instruction Task2.editor_agent)
               (<["blog_draft" := draft]> st)
       = "Edit this draft: " +:+ draft +:+ nl
         +:+ "Your task is to polish the text by fixing any grammatical errors, improving the flow and sentence structure, and enhancing overall clarity.")
  ∧ let o := text (llm 0%nat "OutlineAgent"
                     (agent_instruction Task2.outline_agent) prompt) in
    let w := text (llm 1%nat "WriterAgent" (writer_request o) prompt) in
    let e := text (llm 2%nat "EditorAgent" (editor_request w) prompt) in
    let s := run_debug llm prompt Task2.build_sequential_blog_pipeline in
    events s
    = [ModelCall "OutlineAgent" (agent_instruction Task2.outline_agent)
         (Answered o);
       ModelCall "WriterAgent" (writer_request o) (Answered w);
       ModelCall "EditorAgent" (editor_request w) (Answered e)]
    ∧ state s !! "blog_outline" = Some o
    ∧ state s !! "blog_draft" = Some w
    ∧ state s !! "final_blog" = Some e
    ∧ final_response s = Some e.
Proof.
  split; [reflexivity|]. split; [reflexivity|]. split; [reflexivity|].
  split; [vm_compute; reflexivity|]. split; [vm_compute; reflexivity|].
  split; [intros st draft; apply resolve_editor|].
  intros o w e s. subst s. rewrite blog_run. fold o. fold w. fold e.
  cbn [events state].
  split; [reflexivity|].
  split; [by lookups|]. split; [by lookups|]. split; [by lookups|].
  reflexivity.
Qed.

(** ** The parallel research team and its aggregator *)

(** C5: the research team is the only Parallel Composer.  Its three members
    have pairwise distinct output keys, none of their instructions reads a
    member's key, so the request a member sends is its instruction whatever
    the state holds, and in a run each member's output answers that request
    alone. *)
Theorem C5_parallel_members_isolated (K : Z)
    (llm : nat -> string -> string -> string -> Response) (prompt : string) :
  let members := composer_sub_agents Task2.parallel_team in
  flat_map parallel_groups (Task1.root_agent :: Task2.pipelines K) = [members]
  ∧ map agent_name members
    = ["TechResearcher"; "HealthResearcher"; "FinanceResearcher"]
  ∧ map agent_output_key members
    = [Some "tech_research"; Some "health_research"; Some "finance_research"]
  ∧ NoDup (omap agent_output_key members)
  ∧ Forall (fun m => Forall (fun k => occurs_in (placeholder k)
                                         (agent_instruction m) = false
                                       ∧ k ∉ placeholders (agent_instruction m))
                            (omap agent_output_key members)) members
  ∧ Forall (fun m => ∀ st, resolve (agent_instruction m) st
                           = agent_instruction m) members
  ∧ take 3 (events (run_debug llm prompt Task2.build_parallel_research_system))
    = map (fun im =>
             ModelCall (agent_name im.2) (agent_instruction im.2)
               (Answered (text (llm im.1 (agent_name im.2)
                                    (agent_instruction im.2) prompt))))
          (imap pair members).
Proof.
  intros members. subst members.
  split; [reflexivity|]. split; [reflexivity|]. split; [reflexivity|].
  split; [decide_by_compute|].
  split; [repeat (constructor; [repeat (constructor;
            [split; [vm_compute; reflexivity|decide_by_compute]|]);
            constructor|]); constructor|].
  split; [exact research_members_requests|].
  rewrite research_run. reflexivity.
Qed.

(** C7: the research system is a Sequential Composer of the parallel team
    followed by the aggregator.  The aggregator's instruction reads exactly
    the three keys the members write, its answer goes under
    [executive_summary], and in every run it is called last, with the three
    reports merged into its one request. *)
Theorem C7_aggregator_reads_all_members
    (llm : nat -> string -> string -> string -> Response) (prompt : string) :
  Task2.build_parallel_research_system
  = SequentialAgent "ResearchSystem"
      [ParallelAgent "ParallelResearchTeam"
         [Task2.tech_researcher; Task2.health_researcher;
          Task2.finance_researcher];
       Task2.aggregator_agent]
  ∧ Forall (fun k => occurs_in (placeholder k)
                       (agent_instruction Task2.aggregator_agent) = true)
           (omap agent_output_key (composer_sub_agents Task2.parallel_team))
  ∧ placeholders (agent_instruction Task2.aggregator_agent)
    = omap agent_output_key (composer_sub_agents Task2.parallel_team)
  ∧ placeholders (agent_instruction Task2.aggregator_agent)
    = ["tech_research"; "health_research"; "finance_research"]
  ∧ agent_output_key Task2.aggregator_agent = Some "executive_summary"
  ∧ (∀ st t h f,
       resolve (agent_instruction Task2.aggregator_agent)
         (<["finance_research" := f]>
            (<["health_research" := h]> (<["tech_research" := t]> st)))
       = aggregator_request t h f)
  ∧ let s := run_debug llm prompt Task2.build_parallel_research_system in
    let t := text (llm 0%nat "TechResearcher"
                     (agent_instruction Task2.tech_researcher) prompt) in
    let h := text (llm 1%nat "HealthResearcher"
                     (agent_instruction Task2.health_researcher) prompt) in
    let f := text (llm 2%nat "FinanceResearcher"
                     (agent_instruction Task2.finance_researcher) prompt) in
    let e := text (llm 3%nat "AggregatorAgent" (aggregator_request t h f)
                     prompt) in
    called_agents (events s)
    = ["TechResearcher"; "HealthResearcher"; "FinanceResearcher";
       "AggregatorAgent"]
    ∧ answers_of "TechResearcher" (events s) = [t]
    ∧ answers_of "HealthResearcher" (events s) = [h]
    ∧ answers_of "FinanceResearcher" (events s) = [f]
    ∧ last (events s)
      = Some (ModelCall "AggregatorAgent" (aggregator_request t h f)
                (Answered e))
    ∧ state s !! "executive_summary" = Some e
    ∧ final_response s = Some e.
Proof.
  split; [reflexivity|].
  split; [repeat (constructor; [vm_compute; reflexivity|]); constructor|].
  split; [vm_compute; reflexivity|]. split; [vm_compute; reflexivity|].
  split; [reflexivity|].
  split; [intros st t h f; apply resolve_aggregator|].
  intros s t h f e. subst s. rewrite research_run. fold t. fold h. fold f. fold e.
  cbn [events state].
  split; [reflexivity|]. split; [reflexivity|]. split; [reflexivity|].
  split; [reflexivity|]. split; [reflexivity|].
  split; [by lookups|]. reflexivity.
Qed.

(** ** The Loop Composer *)

Section Loop.
Variable body : Session -> Session.

Lemma loop_run_step remaining k s :
  loop_run body (S remaining) k s
  = if exit_requested (body s)
    then mkLoopResult (acknowledge_exit (body s)) APPROVED (S k)
    else loop_run body remaining (S k) (body s).
Proof. reflexivity. Qed.




(** With no exit signal the loop runs to its cap. *)
Lemma loop_run_exhausted remaining k s :
  (∀ j, (1 ≤ j ≤ remaining)%nat → exit_requested (Nat.iter j body s) = false) →
  loop_run body remaining k s
  = mkLoopResult (Nat.iter remaining body s) EXHAUSTED (k + remaining).
Proof.
  revert k s. induction remaining as [|r IH]; intros k s Hno.
  - simpl. by rewrite Nat.add_0_r.
  - rewrite loop_run_step.
    assert (exit_requested (body s) = false) as ->.
    { apply (Hno 1%nat). lia. }
    rewrite IH.
    + rewrite <- Nat.iter_succ_r. f_equal. lia.
    + intros j Hj. rewrite <- Nat.iter_succ_r. apply Hno. lia.
Qed.


End Loop.

(** ** The story pipeline *)







Section Story.
Variable llm : nat -> string -> string -> string -> Response.
Variable prompt : string.















End Story.





(** ** The definitions at work on concrete inputs *)

Example parse_template_critic :
  parse_template "Story: {current_story} / Critique: {critique}."
  = [Lit "Story: "; Hole "current_story"; Lit " / Critique: ";
     Hole "critique"; Lit "."].
Proof. reflexivity. Qed.

Example resolve_missing_key_stays :
  resolve "Edit this draft: {blog_draft}" {["blog_outline" := "1. Agents"]}
  = "Edit this draft: {blog_draft}".
Proof. vm_compute. reflexivity. Qed.

(** Four retryable failures exhaust the five attempts. *)
Example retry_exhausted :
  generate_content (Task2.gemini_model Task2.default_model_name)
    (fun _ => HttpError 503 : HttpResult string)
  = mkCall (HttpError 503) 5 [1; 7; 49; 343].
Proof. reflexivity. Qed.

(** A 404 is not retried. *)
Example retry_not_found :
  generate_content (Task2.gemini_model Task2.default_model_name)
    (fun _ => HttpError 404 : HttpResult string)
  = mkCall (HttpError 404) 1 [].
Proof. reflexivity. Qed.

(** A refiner that rewrites the story instead of calling [exit_loop] takes
    the loop to its cap: two iterations, then EXHAUSTED. *)
Example story_loop_exhausted :
  let llm := fun (n : nat) (name instr prompt : string) =>
    mkResponse (if String.eqb name "CriticAgent" then "Tighten the ending."
                else "A keeper, a map, a light.") None in
  let s := run_debug llm "Write a short story" Task2.loop_pipeline in
  called_agents (events s)
  = ["InitialWriterAgent"; "CriticAgent"; "RefinerAgent";
     "CriticAgent"; "RefinerAgent"]
  ∧ last (events s) = Some (LoopEnded "StoryRefinementLoop" EXHAUSTED 2).
Proof. vm_compute. split; reflexivity. Qed.

(** A cap of zero runs no iteration. *)
Example story_loop_zero :
  let llm := fun (n : nat) (name instr prompt : string) =>
    mkResponse "A keeper, a map, a light." None in
  called_agents
    (events (run_debug llm "Write a short story"
               (Task2.build_loop_refinement_pipeline 0)))
  = ["InitialWriterAgent"].
Proof. vm_compute. reflexivity. Qed.

(** Cell 2 with a secret at hand: the key is stored and the success line
    printed. *)
Example setup_api_key_stores :
  Task1.setup_api_key (Some (fun _ => inr "AIza-key")) (mkWorld ∅ [])
  = Done tt (mkWorld {["GOOGLE_API_KEY" := "AIza-key"]}
               ["✅ Gemini API key setup complete."]).
Proof. reflexivity. Qed.

(** A secret that holds a null byte is refused by [os.environ]: cell 2
    reports it and stores nothing. *)
Example setup_api_key_null_byte :
  Task1.setup_api_key (Some (fun _ => inr ("AIza" +:+ String "000" "key")))
    (mkWorld ∅ [])
  = Done tt (mkWorld ∅ [authentication_error +:+ " embedded null byte"]).
Proof. reflexivity. Qed.

(** A [KeyboardInterrupt] during the lookup is not caught by
    [except Exception]. *)
Example configure_api_key_interrupted :
  Task2.configure_api_key_from_kaggle (Some (fun _ => inl KeyboardInterrupt))
    (mkWorld ∅ [])
  = Raised KeyboardInterrupt (mkWorld ∅ []).
Proof. reflexivity. Qed.

(** An empty secret is not stored by [configure_api_key_from_kaggle], which
    says nothing. *)
Example configure_api_key_empty_secret :
  Task2.configure_api_key_from_kaggle (Some (fun _ => inr ""))
    (mkWorld {["HOME" := "/kaggle/working"]} [])
  = Done tt (mkWorld {["HOME" := "/kaggle/working"]} []).
Proof. reflexivity. Qed.

(** * Beyond the claims: the notebook cells, the set-up and [main] *)

(** ** [str.split] and [str.join] *)

Lemma str_split_not_nil sep s : str_split sep s ≠ [].
Proof.
  destruct s as [|c s]; simpl; [done|].
  destruct (Ascii.eqb c sep); [done|]. by destruct (str_split sep s).
Qed.

Lemma str_split_length sep s :
  length (str_split sep s) = S (count_char sep s).
Proof.
  induction s as [|c s IH]; simpl; [done|].
  destruct (Ascii.eqb c sep); simpl; [by rewrite IH|].
  destruct (str_split sep s) as [|w ws] eqn:Hs; simpl in *; lia.
Qed.

Lemma str_join_split sep s :
  str_join (String sep EmptyString) (str_split sep s) = s.
Proof.
  unfold str_join. induction s as [|c s IH]; simpl; [done|].
  destruct (Ascii.eqb_spec c sep) as [->|Hne].
  - pose proof (str_split_not_nil sep s).
    destruct (str_split sep s) as [|w ws] eqn:Hs; [done|].
    simpl in *. by rewrite IH.
  - destruct (str_split sep s) as [|w ws] eqn:Hs; [by destruct (str_split_not_nil sep s)|].
    destruct ws; simpl in *; by rewrite <- IH.
Qed.

Lemma str_split_parts_clean sep s :
  Forall (fun w => count_char sep w = 0%nat) (str_split sep s).
Proof.
  induction s as [|c s IH]; simpl; [by repeat constructor|].
  destruct (Ascii.eqb c sep) eqn:Hc; [by constructor|].
  destruct (str_split sep s) as [|w ws]; [by repeat constructor; simpl; rewrite Hc|].
  inversion IH; subst. constructor; [|done]. simpl. by rewrite Hc.
Qed.

Lemma str_split_clean sep a :
  count_char sep a = 0%nat → str_split sep a = [a].
Proof.
  induction a as [|c a IH]; simpl; [done|].
  destruct (Ascii.eqb c sep); simpl; [done|]. intros H. by rewrite IH.
Qed.

Lemma str_split_app sep a b :
  count_char sep a = 0%nat →
  str_split sep (a +:+ String sep b) = a :: str_split sep b.
Proof.
  induction a as [|c a IH]; simpl.
  - by rewrite Ascii.eqb_refl.
  - destruct (Ascii.eqb c sep); simpl; [done|]. intros H. by rewrite IH.
Qed.

Lemma count_char_app c a b :
  count_char c (a +:+ b) = (count_char c a + count_char c b)%nat.
Proof. induction a as [|c' a IH]; simpl; [done|]. rewrite IH. lia. Qed.

Lemma append_empty_r (s : string) : s +:+ "" = s.
Proof.
  induction s as [|c s IH]; [done|].
  change (String c (s +:+ "") = String c s). by rewrite IH.
Qed.

(** ** [get_adk_proxy_url] *)

Lemma parts_found (l : list string) :
  (4 ≤ length l)%nat →
  ∃ kernel token, l !! 2%nat = Some kernel ∧ l !! 3%nat = Some token.
Proof.
  destruct l as [|a [|b [|c [|d l]]]]; simpl; try lia. eauto.
Qed.

Lemma parts_missing (l : list string) :
  (length l < 4)%nat → l !! 2%nat = None ∨ l !! 3%nat = None.
Proof.
  destruct l as [|a [|b [|c [|d l]]]]; simpl; try lia; auto.
Qed.

Lemma get_adk_proxy_url_of_base_url server others baseURL p :
  server !! "base_url" = Some baseURL →
  Task1Cells.get_adk_proxy_url (Some (server :: others)) p
  = match str_split "/" baseURL !! 2%nat, str_split "/" baseURL !! 3%nat with
    | Some kernel, Some token =>
        let url_prefix :=
          "/k/" +:+ kernel +:+ "/" +:+ token +:+ "/proxy/proxy/8000" in
        Done url_prefix
          (mkProcess (os p)
             (displayed p
              ++ [Task1Cells.styled_html (Task1Cells.PROXY_HOST +:+ url_prefix)])
             (spawned p))
    | _, _ =>
        Raised (Exception
          ("Could not parse kernel/token from base URL: " +:+ baseURL)) p
    end.
Proof.
  intros Hbase. unfold Task1Cells.get_adk_proxy_url, mbind, mret, Prog_bind, Prog_ret, raise, display.
  cbn -[str_split Task1Cells.styled_html String.append]. rewrite Hbase.
  cbn -[str_split Task1Cells.styled_html String.append].
  destruct (str_split "/" baseURL !! 2%nat) as [kernel|];
    [destruct (str_split "/" baseURL !! 3%nat) as [token|]|]; reflexivity.
Qed.

(** X1: [get_adk_proxy_url] returns exactly when the first server's base
    URL has at least three slashes; with fewer it raises, naming the URL.
    It also raises when [jupyter_server] cannot be imported, when no server
    runs and when the first server has no [base_url]; each time the process
    is left as it was. *)
Theorem X1_get_adk_proxy_url_needs_three_slashes
    (fields : gmap string string) (others : list (gmap string string))
    (baseURL : string) (p : Process) :
  let servers := Some (<["base_url" := baseURL]> fields :: others) in
  ((3 ≤ count_char "/" baseURL)%nat
   ↔ ∃ url_prefix p',
       Task1Cells.get_adk_proxy_url servers p = Done url_prefix p')
  ∧ ((count_char "/" baseURL < 3)%nat
     ↔ Task1Cells.get_adk_proxy_url servers p
       = Raised (Exception
           ("Could not parse kernel/token from base URL: " +:+ baseURL)) p)
  ∧ Task1Cells.get_adk_proxy_url None p
    = Raised (Exception
        "jupyter_server import failed. This helper is intended for Kaggle/Jupyter environments.") p
  ∧ Task1Cells.get_adk_proxy_url (Some []) p
    = Raised (Exception
        "No running Jupyter servers found. Cannot build proxy URL.") p
  ∧ Task1Cells.get_adk_proxy_url (Some (delete "base_url" fields :: others)) p
    = Raised (Exception "'base_url'") p.
Proof.
  intros servers. subst servers.
  rewrite (get_adk_proxy_url_of_base_url _ _ baseURL) by apply lookup_insert_eq.
  pose proof (str_split_length "/" baseURL) as Hlen.
  assert ((count_char "/" baseURL < 3)%nat →
          str_split "/" baseURL !! 2%nat = None
          ∨ str_split "/" baseURL !! 3%nat = None) as Hfew.
  { intros Hn. apply parts_missing. lia. }
  assert ((3 ≤ count_char "/" baseURL)%nat →
          ∃ kernel token, str_split "/" baseURL !! 2%nat = Some kernel
                          ∧ str_split "/" baseURL !! 3%nat = Some token) as Hmany.
  { intros Hn. apply parts_found. lia. }
  split; [|split; [|split; [|split]]].
  - split.
    + intros (kernel & token & -> & ->)%Hmany. eauto.
    + intros (url_prefix & p' & Hdone).
      destruct (decide (3 ≤ count_char "/" baseURL)%nat) as [|Hn]; [done|].
      destruct Hfew as [H2|H3]; [lia| |].
      * by rewrite H2 in Hdone.
      * rewrite H3 in Hdone. by destruct (str_split "/" baseURL !! 2%nat).
  - split.
    + intros [H2|H3]%Hfew.
      * by rewrite H2.
      * rewrite H3. by destruct (str_split "/" baseURL !! 2%nat).
    + intros Hraised.
      destruct (decide (count_char "/" baseURL < 3)%nat) as [|Hn]; [done|].
      destruct Hmany as (kernel & token & H2 & H3); [lia|].
      by rewrite H2, H3 in Hraised.
  - reflexivity.
  - reflexivity.
  - unfold Task1Cells.get_adk_proxy_url, mbind, mret, Prog_bind, Prog_ret, raise, display.
    cbn -[str_split Task1Cells.styled_html String.append].
    by rewrite lookup_delete_eq.
Qed.

(** X2: whatever the notebook server reports, a failure of
    [get_adk_proxy_url] leaves the process as it was and is an [Exception];
    a success has displayed one button, whose link is the proxy host
    followed by the returned prefix, and has printed and started nothing. *)
Theorem X2_get_adk_proxy_url_effects
    (js : option (list (gmap string string))) (p : Process) :
  match Task1Cells.get_adk_proxy_url js p with
  | Raised e p' => p' = p ∧ e ≠ KeyboardInterrupt
  | Done url_prefix p' =>
      p' = mkProcess (os p)
             (displayed p
              ++ [Task1Cells.styled_html (Task1Cells.PROXY_HOST +:+ url_prefix)])
             (spawned p)
  end.
Proof.
  destruct js as [[|server others]|]; [done| |done].
  destruct (server !! "base_url") as [baseURL|] eqn:Hbase.
  - rewrite (get_adk_proxy_url_of_base_url _ _ _ _ Hbase).
    destruct (str_split "/" baseURL !! 2%nat) as [kernel|];
      [destruct (str_split "/" baseURL !! 3%nat) as [token|]|]; done.
  - unfold Task1Cells.get_adk_proxy_url, mbind, mret, Prog_bind, Prog_ret, raise, display.
    cbn -[str_split Task1Cells.styled_html String.append]. rewrite Hbase. done.
Qed.

Lemma str_split_url_prefix kernel token :
  count_char "/" kernel = 0%nat → count_char "/" token = 0%nat →
  str_split "/" ("/k/" +:+ kernel +:+ "/" +:+ token +:+ "/proxy/proxy/8000")
  = [""; "k"; kernel; token; "proxy"; "proxy"; "8000"].
Proof.
  intros Hk Ht.
  change ("/k/" +:+ kernel +:+ "/" +:+ token +:+ "/proxy/proxy/8000")
    with ("" +:+ String "/" ("k" +:+ String "/"
            (kernel +:+ String "/" (token +:+ String "/" "proxy/proxy/8000")))).
  by rewrite !str_split_app.
Qed.

(** What a success was built from. *)
Lemma get_adk_proxy_url_done js p url_prefix p' :
  Task1Cells.get_adk_proxy_url js p = Done url_prefix p' →
  ∃ kernel token,
    count_char "/" kernel = 0%nat ∧ count_char "/" token = 0%nat
    ∧ url_prefix = "/k/" +:+ kernel +:+ "/" +:+ token +:+ "/proxy/proxy/8000"
    ∧ p' = mkProcess (os p)
             (displayed p
              ++ [Task1Cells.styled_html (Task1Cells.PROXY_HOST +:+ url_prefix)])
             (spawned p).
Proof.
  destruct js as [[|server others]|]; [done| |done].
  destruct (server !! "base_url") as [baseURL|] eqn:Hbase.
  - rewrite (get_adk_proxy_url_of_base_url _ _ _ _ Hbase).
    pose proof (str_split_parts_clean "/" baseURL) as Hclean.
    rewrite Forall_lookup in Hclean.
    destruct (str_split "/" baseURL !! 2%nat) as [kernel|] eqn:H2;
      [destruct (str_split "/" baseURL !! 3%nat) as [token|] eqn:H3|]; try done.
    intros [= <- <-]. exists kernel, token. repeat split; eauto.
  - unfold Task1Cells.get_adk_proxy_url, mbind, mret, Prog_bind, Prog_ret, raise, display.
    cbn -[str_split Task1Cells.styled_html String.append]. by rewrite Hbase.
Qed.

(** What a failure is. *)
Lemma get_adk_proxy_url_raised js p e p' :
  Task1Cells.get_adk_proxy_url js p = Raised e p' →
  p' = p ∧ ∃ msg, e = Exception msg.
Proof.
  destruct js as [[|server others]|]; [by intros [= <- <-]; eauto| |by intros [= <- <-]; eauto].
  destruct (server !! "base_url") as [baseURL|] eqn:Hbase.
  - rewrite (get_adk_proxy_url_of_base_url _ _ _ _ Hbase).
    destruct (str_split "/" baseURL !! 2%nat) as [kernel|];
      [destruct (str_split "/" baseURL !! 3%nat) as [token|]|];
      try done; intros [= <- <-]; eauto.
  - unfold Task1Cells.get_adk_proxy_url, mbind, mret, Prog_bind, Prog_ret, raise, display.
    cbn -[str_split Task1Cells.styled_html String.append]. rewrite Hbase.
    intros [= <- <-]; eauto.
Qed.

(** X3: a prefix [get_adk_proxy_url] returns is never empty, so cell 9
    takes it for true, and splitting it at the slashes gives back the kernel
    and the token it was built from, between [k] and [proxy/proxy/8000]. *)
Theorem X3_get_adk_proxy_url_result_shape
    (js : option (list (gmap string string))) (p : Process) :
  match Task1Cells.get_adk_proxy_url js p with
  | Done url_prefix _ =>
      truthy url_prefix = true
      ∧ ∃ kernel token,
          url_prefix
          = "/k/" +:+ kernel +:+ "/" +:+ token +:+ "/proxy/proxy/8000"
          ∧ str_split "/" url_prefix
            = [""; "k"; kernel; token; "proxy"; "proxy"; "8000"]
  | Raised _ _ => True
  end.
Proof.
  destruct (Task1Cells.get_adk_proxy_url js p) as [url_prefix p'|] eqn:Hget; [|done].
  apply get_adk_proxy_url_done in Hget as (kernel & token & Hk & Ht & -> & _).
  split; [done|]. exists kernel, token. split; [done|].
  by apply str_split_url_prefix.
Qed.

(** X4: a base URL of the shape [p0/p1/kernel/token], or that followed by a
    slash and anything, gives the prefix of that kernel and token; the first
    two components play no part, not even the [k] Kaggle puts second. *)
Theorem X4_get_adk_proxy_url_kaggle
    (server : gmap string string) (others : list (gmap string string))
    (p : Process) (p0 p1 kernel token tail : string) :
  server !! "base_url"
  = Some (p0 +:+ "/" +:+ p1 +:+ "/" +:+ kernel +:+ "/" +:+ token +:+ tail) →
  count_char "/" p0 = 0%nat → count_char "/" p1 = 0%nat →
  count_char "/" kernel = 0%nat → count_char "/" token = 0%nat →
  tail = "" ∨ (∃ rest, tail = "/" +:+ rest) →
  ∃ p', Task1Cells.get_adk_proxy_url (Some (server :: others)) p
        = Done ("/k/" +:+ kernel +:+ "/" +:+ token +:+ "/proxy/proxy/8000") p'.
Proof.
  intros Hbase H0 H1 Hk Ht Htail.
  rewrite (get_adk_proxy_url_of_base_url _ _ _ _ Hbase).
  change (p0 +:+ "/" +:+ p1 +:+ "/" +:+ kernel +:+ "/" +:+ token +:+ tail)
    with (p0 +:+ String "/" (p1 +:+ String "/" (kernel +:+ String "/" (token +:+ tail)))).
  rewrite !str_split_app by done.
  assert (∃ ws, str_split "/" (token +:+ tail) = token :: ws) as [ws ->].
  { destruct Htail as [-> | [rest ->]].
    - exists []. rewrite append_empty_r. by apply str_split_clean.
    - exists (str_split "/" rest).
      change (token +:+ "/" +:+ rest) with (token +:+ String "/" rest).
      by apply str_split_app. }
  simpl. eauto.
Qed.

(** X4 at work: the base URL of a Kaggle notebook. *)
Lemma X4_get_adk_proxy_url_kaggle_witness :
  ∃ p', Task1Cells.get_adk_proxy_url
          (Some [{["base_url" := "/k/271828/eyJhbGciOiJkaXIifQ/"]}])
          (boot (mkWorld ∅ []))
        = Done "/k/271828/eyJhbGciOiJkaXIifQ/proxy/proxy/8000" p'.
Proof.
  apply (X4_get_adk_proxy_url_kaggle
           {["base_url" := "/k/271828/eyJhbGciOiJkaXIifQ/"]} []
           (boot (mkWorld ∅ [])) "" "k" "271828" "eyJhbGciOiJkaXIifQ" "/").
  - reflexivity.
  - reflexivity.
  - reflexivity.
  - reflexivity.
  - reflexivity.
  - right. by exists "".
Defined.


(** ** Cell 9: starting the web UI *)

(** X5: cell 9 starts the web UI exactly when [get_adk_proxy_url] returned,
    and then with the argument vector [adk web --url_prefix] and the
    returned prefix.  When the URL could not be built it prints why and that
    the UI was not started, starts nothing and raises nothing; a failure to
    start the program is the only exception that escapes. *)
Theorem X5_start_adk_web_outcome
    (js : option (list (gmap string string)))
    (launch : list string -> PyError + N) (p : Process) :
  match Task1Cells.get_adk_proxy_url js p with
  | Raised (Exception msg) _ =>
      Task1Cells.start_adk_web js launch p
      = Done None
          (mkProcess
             (print "ADK web not started (missing url_prefix). If running locally, run: adk web --url_prefix <your_prefix> or simply `adk web`"
                (print2 "Could not build proxy URL (not in Kaggle/Jupyter?):" msg (os p)))
             (displayed p) (spawned p))
  | Raised KeyboardInterrupt _ => False
  | Done url_prefix p1 =>
      let announced :=
        print ("Starting ADK web UI with: adk web --url_prefix " +:+ url_prefix)
          (print2 "URL prefix:" url_prefix (os p)) in
      match launch (web_cmd url_prefix) with
      | inr pid =>
          Task1Cells.start_adk_web js launch p
          = Done (Some url_prefix)
              (mkProcess
                 (print ("ADK web started (pid=" +:+ pretty pid
                         +:+ "). Check kernel output for logs. Open the proxy link displayed above.")
                    announced)
                 (displayed p
                  ++ [Task1Cells.styled_html
                        (Task1Cells.PROXY_HOST +:+ url_prefix)])
                 (spawned p ++ [web_cmd url_prefix]))
      | inl e =>
          Task1Cells.start_adk_web js launch p
          = Raised e
              (mkProcess announced
                 (displayed p
                  ++ [Task1Cells.styled_html
                        (Task1Cells.PROXY_HOST +:+ url_prefix)])
                 (spawned p))
      end
  end.
Proof.
  destruct (Task1Cells.get_adk_proxy_url js p) as [url_prefix p1|e p1] eqn:Hget.
  - destruct (get_adk_proxy_url_done _ _ _ _ Hget) as (kernel & token & _ & _ & Hprefix & ->).
    assert (truthy url_prefix = true) as Htruthy by (by rewrite Hprefix).
    cbv zeta.
    unfold Task1Cells.start_adk_web, try_except_Exception, mbind, mret, Prog_bind,
      Prog_ret, echo, echo2, Popen.
    rewrite Hget. cbn [from_option default id]. rewrite Htruthy.
    unfold web_cmd.
    destruct (launch ["adk"; "web"; "--url_prefix"; url_prefix]) as [e|pid];
      reflexivity.
  - destruct (get_adk_proxy_url_raised _ _ _ _ Hget) as (-> & msg & ->).
    unfold Task1Cells.start_adk_web, try_except_Exception, mbind, mret, Prog_bind,
      Prog_ret, echo, echo2, Popen.
    rewrite Hget. reflexivity.
Qed.

(** ** The API key, once the set-up has run *)

Lemma snoc_not_self {A : Type} (l : list A) (x : A) : l ≠ (l ++ [x])%list.
Proof.
  intros H. apply (f_equal length) in H. rewrite length_app in H.
  simpl in H. lia.
Qed.

(** X6: Task1's set-up completes unless the lookup raises what is no
    [Exception], which passes through with nothing printed or stored.
    When it completes it has printed exactly one line.  It stores the secret
    the store yields, an empty one included, if [os.environ] takes it, and
    prints the success line then and only then; a secret that holds a null
    byte is not stored and is reported as an authentication error.  No other
    variable changes, and a key that was set is never unset. *)
Theorem X6_setup_api_key_environment (store : option SecretStore) (w : World) :
  if interrupted store
  then Task1.setup_api_key store w = Raised KeyboardInterrupt w
  else ∃ w', Task1.setup_api_key store w = Done tt w'
    ∧ environ w' !! "GOOGLE_API_KEY"
      = match secret_of store with
        | Some key => if storable key then Some key
                      else environ w !! "GOOGLE_API_KEY"
        | None => environ w !! "GOOGLE_API_KEY"
        end
    ∧ (∀ k, k ≠ "GOOGLE_API_KEY" → environ w' !! k = environ w !! k)
    ∧ (∃ line : string, stdout w' = (stdout w ++ [line])%list)
    ∧ ((∃ key, secret_of store = Some key ∧ storable key = true)
       ↔ stdout w' = (stdout w ++ ["✅ Gemini API key setup complete."])%list)
    ∧ (∀ key, secret_of store = Some key → storable key = false →
         w' = print2 authentication_error "embedded null byte" w).
Proof.
  rewrite setup_api_key_result. unfold interrupted, secret_of.
  destruct store as [lookup|];
    [destruct (lookup "GOOGLE_API_KEY") as [[e|]|key];
       [| |destruct (storable key) eqn:Hkey]|];
    [|reflexivity|..];
    (eexists; split; [reflexivity|]);
    cbn [print print2 environ stdout].
  - split; [done|]. split; [done|]. split; [eauto|].
    split; [|by intros ? [=]].
    split; [by intros (? & [=] & _)|].
    intros H%app_inv_head. injection H as H. revert H.
    unfold authentication_error. vm_compute. discriminate.
  - rewrite lookup_insert_eq. split; [done|].
    split; [by intros k Hk; rewrite lookup_insert_ne|].
    split; [eauto|]. split; [split; [done|eauto]|].
    intros ? [= <-]. congruence.
  - split; [done|]. split; [done|]. split; [eauto|].
    split; [|by intros ? [= <-] _].
    split; [intros (? & [= <-] & ?); congruence|].
    intros H%app_inv_head. injection H as H. revert H.
    unfold authentication_error. vm_compute. discriminate.
  - split; [done|]. split; [done|]. split; [eauto|].
    split; [|by intros ? [=]].
    split; [by intros (? & [=] & _)|].
    intros H%app_inv_head. injection H as H. revert H.
    unfold authentication_error. vm_compute. discriminate.
Qed.

(** X7: Task2's set-up completes unless the lookup raises what is no
    [Exception], which passes through with nothing printed or stored.  It
    stores the secret only when the store yields a non-empty one that
    [os.environ] takes, and prints the success line then and only then; a
    non-empty secret that holds a null byte is not stored and is reported as
    unreadable.  With no store, or an empty secret, it leaves the process
    exactly as it was, without a word; it changes no other variable, never
    unsets a key that was set and prints at most one line. *)
Theorem X7_configure_api_key_environment (store : option SecretStore) (w : World) :
  if interrupted store
  then Task2.configure_api_key_from_kaggle store w = Raised KeyboardInterrupt w
  else ∃ w', Task2.configure_api_key_from_kaggle store w = Done tt w'
    ∧ environ w' !! "GOOGLE_API_KEY"
      = match secret_of store with
        | Some key => if truthy key && storable key then Some key
                      else environ w !! "GOOGLE_API_KEY"
        | None => environ w !! "GOOGLE_API_KEY"
        end
    ∧ (∀ k, k ≠ "GOOGLE_API_KEY" → environ w' !! k = environ w !! k)
    ∧ (store = None ∨ secret_of store = Some "" → w' = w)
    ∧ (stdout w' = stdout w
       ∨ ∃ line : string, stdout w' = (stdout w ++ [line])%list)
    ∧ ((∃ key, secret_of store = Some key
               ∧ truthy key = true ∧ storable key = true)
       ↔ stdout w'
         = (stdout w ++ ["✅ Loaded GOOGLE_API_KEY from Kaggle secrets."])%list)
    ∧ (∀ key, secret_of store = Some key →
         truthy key = true → storable key = false →
         w' = print2 "(Kaggle) couldn't read secret:" "embedded null byte" w).
Proof.
  rewrite configure_api_key_result. unfold interrupted, secret_of.
  destruct store as [lookup|];
    [destruct (lookup "GOOGLE_API_KEY") as [[e|]|key];
       [| |destruct key as [|c key];
            [|destruct (storable (String c key)) eqn:Hkey]]|];
    [|reflexivity|..];
    (eexists; split; [reflexivity|]);
    cbn [truthy andb print print2 environ stdout].
  - split; [done|]. split; [done|]. split; [by intros [[=]|[=]]|].
    split; [right; eauto|]. split; [|by intros ? [=]].
    split; [by intros (? & [=] & _)|].
    intros H%app_inv_head. injection H as H. revert H.
    vm_compute. discriminate.
  - split; [done|]. split; [done|]. split; [done|]. split; [by left|].
    split; [|by intros ? [= <-] [=]].
    split; [by intros (? & [= <-] & [=] & _)|].
    intros H. by apply snoc_not_self in H.
  - rewrite lookup_insert_eq. split; [done|].
    split; [by intros k Hk; rewrite lookup_insert_ne|].
    split; [by intros [[=]|[=]]|]. split; [right; eauto|].
    split; [split; [done|eauto]|].
    intros ? [= <-] _. congruence.
  - split; [done|]. split; [done|]. split; [by intros [[=]|[=]]|].
    split; [right; eauto|]. split; [|by intros ? [= <-] _ _].
    split; [intros (? & [= <-] & _ & ?); congruence|].
    intros H%app_inv_head. injection H as H. revert H.
    vm_compute. discriminate.
  - split; [done|]. split; [done|]. split; [done|]. split; [by left|].
    split; [|by intros ? [=]].
    split; [by intros (? & [=] & _)|].
    intros H. by apply snoc_not_self in H.
Qed.

(** X8: running a set-up a second time changes nothing in the environment.
    When the first run completes, so does the second, and it leaves
    [os.environ] as the first run did; the only other outcome is the
    [KeyboardInterrupt] of the lookup, which leaves the process as it was. *)
Theorem X8_setup_twice (store : option SecretStore) (w : World) :
  match Task1.setup_api_key store w with
  | Done _ w1 =>
      ∃ w2, Task1.setup_api_key store w1 = Done tt w2 ∧ environ w2 = environ w1
  | Raised e w1 => e = KeyboardInterrupt ∧ w1 = w
  end
  ∧ match Task2.configure_api_key_from_kaggle store w with
    | Done _ w1 =>
        ∃ w2, Task2.configure_api_key_from_kaggle store w1 = Done tt w2
              ∧ environ w2 = environ w1
    | Raised e w1 => e = KeyboardInterrupt ∧ w1 = w
    end.
Proof.
  split.
  - rewrite setup_api_key_result.
    destruct store as [lookup|];
      [destruct (lookup "GOOGLE_API_KEY") as [[e|]|key] eqn:Hlookup;
         [| |destruct (storable key) eqn:Hkey]|];
      [|done|..];
      (eexists; rewrite setup_api_key_result;
       try rewrite Hlookup; try rewrite Hkey; split; [reflexivity|]);
      cbn [print print2 environ]; [done| |done..].
    apply insert_insert_eq.
  - rewrite configure_api_key_result.
    destruct store as [lookup|];
      [destruct (lookup "GOOGLE_API_KEY") as [[e|]|key] eqn:Hlookup;
         [| |destruct (truthy key) eqn:Htruthy;
              [destruct (storable key) eqn:Hkey|]]|];
      [|done|..];
      (eexists; rewrite configure_api_key_result;
       try rewrite Hlookup; try rewrite Htruthy; try rewrite Hkey;
       split; [reflexivity|]);
      cbn [print print2 environ]; [done| |done..].
    apply insert_insert_eq.
Qed.

(** X9: the command line of cell 8, after cell 2 has run (to its end or
    not), ends with the secret the store yielded if [os.environ] took it;
    otherwise it ends with the key the environment already held, and with
    nothing at all when there was none. *)
Theorem X9_create_cmd_after_setup (store : option SecretStore) (w : World) :
  Task1Cells.create_cmd (left_behind (Task1.setup_api_key store w))
  = "adk create sample-agent --model gemini-2.5-flash-lite --api_key "
    +:+ match secret_of store with
        | Some key => if storable key then key
                      else default "" (environ w !! "GOOGLE_API_KEY")
        | None => default "" (environ w !! "GOOGLE_API_KEY")
        end.
Proof.
  rewrite setup_api_key_result.
  unfold Task1Cells.create_cmd, secret_of.
  destruct store as [lookup|];
    [destruct (lookup "GOOGLE_API_KEY") as [[e|]|key];
       [| |destruct (storable key)]|];
    cbn [left_behind print print2 environ]; [done..| |done|done].
  by rewrite lookup_insert_eq.
Qed.

(** ** The demo's [main] and the notebook's examples *)

Lemma with_lines_app l1 l2 p :
  with_lines l2 (with_lines l1 p) = with_lines (l1 ++ l2) p.
Proof. unfold with_lines. cbn [os environ stdout displayed spawned]. by rewrite app_assoc. Qed.

Lemma with_lines_nil p : with_lines [] p = p.
Proof. destruct p as [[env out] d s]. unfold with_lines. cbn. by rewrite app_nil_r. Qed.

Lemma run_agent_and_print_result engine agent prompt p :
  Task2Demo.run_agent_and_print engine agent prompt p
  = match (engine agent prompt).2 with
    | inr _ => Done tt (with_lines (transcript engine (agent, prompt)) p)
    | inl e => Raised e (with_lines (transcript engine (agent, prompt)) p)
    end.
Proof.
  unfold Task2Demo.run_agent_and_print, transcript, with_lines, mbind, mret,
    Prog_bind, Prog_ret, echo, run_debug_call, print.
  cbn [fst snd os environ stdout displayed spawned].
  destruct (engine agent prompt) as [trace [e|response]];
    cbn [fst snd os environ stdout displayed spawned];
    rewrite ?app_nil_r, <- ?app_assoc; reflexivity.
Qed.

Lemma run_all_answered engine l p :
  Forall (answered engine) l →
  run_all engine l p = Done tt (with_lines (flat_map (transcript engine) l) p).
Proof.
  intros Hall. revert p.
  induction Hall as [|[agent prompt] l [response Hok] _ IH]; intros p.
  - by rewrite with_lines_nil.
  - cbn [run_all flat_map fst snd] in *. unfold mbind, Prog_bind.
    rewrite run_agent_and_print_result, Hok, IH. by rewrite with_lines_app.
Qed.

Lemma run_all_first_failure engine pre example post e p :
  Forall (answered engine) pre →
  (engine example.1 example.2).2 = inl e →
  run_all engine (pre ++ example :: post) p
  = Raised e (with_lines (flat_map (transcript engine) pre
                          ++ transcript engine example) p).
Proof.
  intros Hall Hfail. revert p.
  induction Hall as [|[agent prompt] l [response Hok] _ IH]; intros p.
  - destruct example as [agent prompt]. cbn [run_all app flat_map fst snd] in *.
    unfold mbind, Prog_bind. by rewrite run_agent_and_print_result, Hfail.
  - cbn [run_all app flat_map fst snd] in *. unfold mbind, Prog_bind.
    rewrite run_agent_and_print_result, Hok, IH.
    by rewrite with_lines_app, app_assoc.
Qed.

Lemma main_is_run_all engine p :
  Task2Demo.main engine p = run_all engine examples p.
Proof.
  unfold Task2Demo.main, examples. cbv zeta. cbn [run_all fst snd].
  unfold mbind, mret, Prog_bind, Prog_ret.
  repeat match goal with
  | |- context [Task2Demo.run_agent_and_print engine ?a ?q ?s] =>
      destruct (Task2Demo.run_agent_and_print engine a q s) as [[] ?|? ?]
  end; reflexivity.
Qed.

(** X10: when the SDK answers all four examples, the guarded [main] ran the
    coordinator, the blog pipeline, the research system and the story
    pipeline with [max_iterations = 2], in that order and each with its
    prompt; it printed their transcripts one after the other and nothing
    else, raised nothing, and displayed and spawned nothing. *)
Theorem X10_main_runs_all_examples engine p :
  Forall (answered engine) examples →
  map (fun x => agent_name x.1) examples
  = ["ResearchCoordinator"; "BlogPipeline"; "ResearchSystem"; "StoryPipeline"]
  ∧ Task2Demo.main_guard engine p
    = Done tt (with_lines (flat_map (transcript engine) examples) p).
Proof.
  intros Hall. split; [reflexivity|].
  unfold Task2Demo.main_guard. by rewrite main_is_run_all, run_all_answered.
Qed.

(** X11: when an example is the first the SDK fails on, the guarded [main]
    stops there: the examples after it are not run, the output ends with
    the line reporting the failure, and no exception escapes. *)
Theorem X11_main_stops_at_first_failure engine pre example post e p :
  examples = (pre ++ example :: post)%list →
  Forall (answered engine) pre →
  (engine example.1 example.2).2 = inl e →
  Task2Demo.main_guard engine p
  = Done tt
      (with_lines
         (flat_map (transcript engine) pre ++ transcript engine example
          ++ [match e with
              | Exception exc => "Error running demo: " +:+ exc
              | KeyboardInterrupt => "Interrupted by user"
              end]) p).
Proof.
  intros Hsplit Hall Hfail.
  unfold Task2Demo.main_guard. rewrite main_is_run_all, Hsplit.
  rewrite (run_all_first_failure engine pre example post e p Hall Hfail).
  destruct e as [exc|]; unfold echo, echo2, print2, print, with_lines;
    cbn [os environ stdout displayed spawned]; by rewrite <- !app_assoc.
Qed.

(** X10 at work: an SDK that answers everything. *)
Lemma X10_main_runs_all_examples_witness :
  let engine := fun (a : BaseAgent) (prompt : string) =>
    (["[" +:+ agent_name a +:+ "] working"],
     inr ("answer of " +:+ agent_name a) : PyError + string) in
  map (fun x => agent_name x.1) examples
  = ["ResearchCoordinator"; "BlogPipeline"; "ResearchSystem"; "StoryPipeline"]
  ∧ Task2Demo.main_guard engine (boot (mkWorld ∅ []))
    = Done tt (with_lines (flat_map (transcript engine) examples)
                 (boot (mkWorld ∅ []))).
Proof.
  intros engine.
  apply (X10_main_runs_all_examples engine (boot (mkWorld ∅ []))).
  unfold examples. repeat constructor; by eexists.
Defined.

(** X11 at work: the service becomes unavailable at the third example. *)
Lemma X11_main_stops_at_first_failure_witness :
  let engine := fun (a : BaseAgent) (prompt : string) =>
    (["[" +:+ agent_name a +:+ "] working"],
     if String.eqb (agent_name a) "ResearchSystem"
     then inl (Exception "503 UNAVAILABLE")
     else inr ("answer of " +:+ agent_name a)) in
  let pre := [ (Task2.build_research_summarizer_coordinator,
                "What are the latest advancements in quantum computing and what do they mean for AI?");
               (Task2.build_sequential_blog_pipeline,
                "Write a blog post about the benefits of multi-agent systems for software developers") ] in
  let example := (Task2.build_parallel_research_system,
                  "Run the daily executive briefing on Tech, Health, and Finance") in
  Task2Demo.main_guard engine (boot (mkWorld ∅ []))
  = Done tt
      (with_lines
         (flat_map (transcript engine) pre ++ transcript engine example
          ++ ["Error running demo: 503 UNAVAILABLE"])
         (boot (mkWorld ∅ []))).
Proof.
  intros engine pre example.
  apply (X11_main_stops_at_first_failure engine pre example
           [(Task2.build_loop_refinement_pipeline 2,
             "Write a short story about a lighthouse keeper who discovers a mysterious, glowing map")]
           (Exception "503 UNAVAILABLE") (boot (mkWorld ∅ []))).
  - reflexivity.
  - repeat constructor; by eexists.
  - reflexivity.
Defined.

Lemma ask_agent_result engine prompt p :
  Task1Cells.ask_agent engine prompt p
  = match (engine Task1.root_agent prompt).2 with
    | inr _ => Done tt (with_lines (ask_transcript engine prompt) p)
    | inl e => Raised e (with_lines (ask_transcript engine prompt) p)
    end.
Proof.
  unfold Task1Cells.ask_agent, ask_transcript, with_lines, mbind, mret,
    Prog_bind, Prog_ret, echo, run_debug_call, print.
  cbn [fst snd os environ stdout displayed spawned].
  destruct (engine Task1.root_agent prompt) as [trace [e|response]];
    cbn [fst snd os environ stdout displayed spawned];
    rewrite ?app_nil_r, <- ?app_assoc; reflexivity.
Qed.

(** X12: the notebook asks its second question only when the first was
    answered, and has no handler: a failure of either call escapes, with on
    the output only what was printed before it. *)
Theorem X12_run_examples_outcome
    (engine : BaseAgent -> string -> list string * (PyError + string))
    (p : Process) :
  let q1 := "What is Agent Development Kit from Google? What languages is the SDK available in?" in
  let q2 := "What's the weather in London?" in
  Task1Cells.run_examples engine p
  = match (engine Task1.root_agent q1).2 with
    | inl e => Raised e (with_lines (ask_transcript engine q1) p)
    | inr _ =>
        match (engine Task1.root_agent q2).2 with
        | inl e =>
            Raised e (with_lines (ask_transcript engine q1
                                  ++ ask_transcript engine q2) p)
        | inr _ =>
            Done tt (with_lines (ask_transcript engine q1
                                 ++ ask_transcript engine q2) p)
        end
    end.
Proof.
  intros q1 q2. unfold Task1Cells.run_examples, mbind, Prog_bind.
  fold q1. fold q2. rewrite (ask_agent_result engine q1 p).
  destruct ((engine Task1.root_agent q1).2) as [e|r1]; [done|].
  rewrite ask_agent_result, with_lines_app.
  by destruct ((engine Task1.root_agent q2).2).
Qed.

(** ** The agent trees the scripts build *)

(** X13: whatever [max_iterations] is, no name is used twice among the
    agents the two scripts build, composers and tool-wrapped agents
    included. *)
Theorem X13_agent_names_unique (K : Z) :
  NoDup (flat_map tree_names (Task1.root_agent :: Task2.pipelines K))
  ∧ length (flat_map tree_names (Task1.root_agent :: Task2.pipelines K))
    = 19%nat.
Proof. split; [decide_by_compute|reflexivity]. Qed.

Lemma reads_known_sound known agents :
  reads_known known agents = true →
  ∀ (pre : list BaseAgent) (a : BaseAgent) (post : list BaseAgent) (k : string),
    agents = (pre ++ a :: post)%list →
    k ∈ placeholders (agent_instruction a) →
    Some k ∈ (known ++ map agent_output_key pre)%list.
Proof.
  revert known. induction agents as [|b rest IH]; intros known Hok pre a post k Heq Hk.
  - by destruct pre.
  - cbn [reads_known] in Hok. apply andb_true_iff in Hok as [Hhere Hrest].
    destruct pre as [|b' pre]; simpl in Heq; injection Heq as <- ->.
    + rewrite forallb_forall in Hhere.
      simpl. rewrite app_nil_r.
      apply list_elem_of_In in Hk. apply Hhere in Hk.
      by apply bool_decide_eq_true in Hk.
    + specialize (IH _ Hrest pre a post k eq_refl Hk).
      simpl. by rewrite <- app_assoc in IH.
Qed.

(** X14: whatever [max_iterations] is, in every agent tree the scripts build
    each placeholder of an instruction is the output key of an agent that
    stands before it: no instruction reads a key nobody has written. *)
Theorem X14_placeholders_are_written_before (K : Z) :
  Forall (fun p => reads_earlier_keys (constructed_agents p))
         (Task1.root_agent :: Task2.pipelines K).
Proof.
  apply (Forall_impl (fun p => reads_known [] (constructed_agents p) = true)).
  - unfold Task2.pipelines.
    repeat (constructor; [vm_compute; reflexivity|]). constructor.
  - intros p Hok pre a post k Heq Hk.
    apply (reads_known_sound [] _ Hok pre a post k Heq Hk).
Qed.

(** ** Splitting and joining *)

(** X15: splitting a string at a character and joining the parts with that
    character gives the string back; there is one part more than the
    character occurs, and no part holds it. *)
Theorem X15_split_join_round_trip (sep : ascii) (s : string) :
  str_join (String sep EmptyString) (str_split sep s) = s
  ∧ length (str_split sep s) = S (count_char sep s)
  ∧ Forall (fun w => count_char sep w = 0%nat) (str_split sep s).
Proof.
  split; [apply str_join_split|].
  split; [apply str_split_length|apply str_split_parts_clean].
Qed.
